(** * argmatch: argument verification in the style of R's [match.arg]

    A shallow embedding of [src/argmatch/__init__.py]: the exception class
    [ArgMatchError] (constructor, the properties [n] and [args], [__str__])
    and the function [arg_match], together with the part of Python's
    [re.match] that [arg_match] relies on.

    Conventions of the embedding.
    - A Python [str] is a [string], its characters being 8-bit; the
      [bytes] instantiation of the type variable [S] is not modelled.
    - A sequence of strings is a [pyseq]: its elements and whether it is a
      tuple or a list, since Python's [==] tells the two apart.
    - A call either returns or raises: [outcome].
    - [arg_match] reads the frame of its caller when [choices] is falsy.
      What [inspect] and [ast] report about that frame is the record
      [caller_frame]; what lines 116 to 125 do with it is [inspect_caller],
      and its result is the argument [caller] of [arg_match].  The [print]
      on that path writes to standard output and is left out.
    - [re.match] is a parameter, which may match, not match, or raise. *)

From Stdlib Require Import String Ascii List ZArith Bool Lia DecimalString.
Import ListNotations.
Open Scope string_scope.

#[local] Set Warnings "-register-all".

(** ** Regular expressions: the fragment of [re] that is modelled *)

Module Re.

(** Abstract syntax of the patterns. [Dot] is any character but a newline
    (no [DOTALL] flag is ever passed by the source). *)
Inductive regex : Type :=
| Empty
| Eps
| Chr (c : ascii)
| Dot
| Cat (r1 r2 : regex)
| Alt (r1 r2 : regex)
| Star (r : regex).

Definition newline : ascii := ascii_of_nat 10.

(** The words of a pattern. *)
Inductive lang : regex -> string -> Prop :=
| lang_eps : lang Eps EmptyString
| lang_chr c : lang (Chr c) (String c EmptyString)
| lang_dot c : c <> newline -> lang Dot (String c EmptyString)
| lang_cat r1 r2 s1 s2 : lang r1 s1 -> lang r2 s2 -> lang (Cat r1 r2) (s1 ++ s2)
| lang_alt_l r1 r2 s : lang r1 s -> lang (Alt r1 r2) s
| lang_alt_r r1 r2 s : lang r2 s -> lang (Alt r1 r2) s
| lang_star_nil r : lang (Star r) EmptyString
| lang_star_app r s1 s2 : lang r s1 -> lang (Star r) s2 -> lang (Star r) (s1 ++ s2).

Fixpoint nullable (r : regex) : bool :=
  match r with
  | Empty | Chr _ | Dot => false
  | Eps | Star _ => true
  | Cat r1 r2 => nullable r1 && nullable r2
  | Alt r1 r2 => nullable r1 || nullable r2
  end.

(** Derivative of a pattern by one character. *)
Fixpoint deriv (a : ascii) (r : regex) : regex :=
  match r with
  | Empty | Eps => Empty
  | Chr c => if (c =? a)%char then Eps else Empty
  | Dot => if (a =? newline)%char then Empty else Eps
  | Cat r1 r2 =>
      if nullable r1 then Alt (Cat (deriv a r1) r2) (deriv a r2)
      else Cat (deriv a r1) r2
  | Alt r1 r2 => Alt (deriv a r1) (deriv a r2)
  | Star r1 => Cat (deriv a r1) (Star r1)
  end.

(** [re.match] anchors the pattern at the start of the subject only: it
    finds a match as soon as some prefix of the subject is a word of the
    pattern. *)
Fixpoint match_prefix (r : regex) (s : string) : bool :=
  nullable r ||
  match s with
  | EmptyString => false
  | String a s' => match_prefix (deriv a r) s'
  end.

(** *** Parsing a pattern *)

Inductive quantifier := QStar | QPlus | QOpt.

Inductive token :=
| TOpen | TClose | TBar | TQuant (q : quantifier) | TDot | TEscape
| TOther                      (* [^ $ [ ] { }]: not in the fragment *)
| TLit.

Definition classify (c : ascii) : token :=
  match c with
  | "("%char => TOpen
  | ")"%char => TClose
  | "|"%char => TBar
  | "*"%char => TQuant QStar
  | "+"%char => TQuant QPlus
  | "?"%char => TQuant QOpt
  | "."%char => TDot
  | "\"%char => TEscape
  | "^"%char | "$"%char | "["%char | "]"%char | "{"%char | "}"%char => TOther
  | _ => TLit
  end.

(** ASCII letters and digits: after a backslash they name a class, an
    anchor, a back-reference or nothing at all. *)
Definition is_alnum (c : ascii) : bool :=
  let k := nat_of_ascii c in
  ((48 <=? k) && (k <=? 57) || (65 <=? k) && (k <=? 90)
   || (97 <=? k) && (k <=? 122))%nat.

(** The last piece of the branch being read, which a quantifier may still
    apply to. *)
Inductive piece :=
| NoPiece
| Plain (r : regex)
| Greedy (r : regex)           (* already quantified *)
| Lazy (r : regex).            (* quantified and followed by [?] *)

(** A group being read: the alternatives closed by [|] so far, the current
    branch without its last piece, and that last piece. *)
Record frame := Frame { alts : option regex; before : regex; last : piece }.

Definition empty_frame : frame := Frame None Eps NoPiece.

Definition branch (f : frame) : regex :=
  match last f with
  | NoPiece => before f
  | Plain r | Greedy r | Lazy r => Cat (before f) r
  end.

Definition close (f : frame) : regex :=
  match alts f with
  | None => branch f
  | Some a => Alt a (branch f)
  end.

Definition push (r : regex) (f : frame) : frame :=
  Frame (alts f) (branch f) (Plain r).

Definition next_branch (f : frame) : frame :=
  Frame (Some (close f)) Eps NoPiece.

Definition repeat (q : quantifier) (r : regex) : regex :=
  match q with
  | QStar => Star r
  | QPlus => Cat r (Star r)
  | QOpt => Alt Eps r
  end.

(** [Malformed]: [re.compile] raises [re.error].  [Outside]: the pattern
    uses syntax that this fragment does not interpret. *)
Inductive parse_error := Malformed | Outside.

Definition quantify (q : quantifier) (f : frame) : parse_error + frame :=
  match last f with
  | NoPiece => inl Malformed                         (* nothing to repeat *)
  | Plain r => inr (Frame (alts f) (before f) (Greedy (repeat q r)))
  | Greedy r =>
      match q with
      | QOpt => inr (Frame (alts f) (before f) (Lazy r))
      | QStar => inl Malformed                       (* multiple repeat *)
      | QPlus => inl Outside                         (* possessive, 3.11 *)
      end
  | Lazy _ => inl Malformed                          (* multiple repeat *)
  end.

(** One pass over the pattern, with the stack of the groups still open. *)
Fixpoint parse_loop (p : string) (f : frame) (stack : list frame)
  : parse_error + regex :=
  match p with
  | EmptyString =>
      match stack with
      | [] => inr (close f)
      | _ :: _ => inl Malformed                      (* missing ) *)
      end
  | String c p' =>
      match classify c with
      | TLit => parse_loop p' (push (Chr c) f) stack
      | TDot => parse_loop p' (push Dot f) stack
      | TBar => parse_loop p' (next_branch f) stack
      | TQuant q =>
          match quantify q f with
          | inl e => inl e
          | inr f' => parse_loop p' f' stack
          end
      | TOpen =>
          match p' with
          | String "?"%char _ => inl Outside         (* extension syntax *)
          | _ => parse_loop p' empty_frame (f :: stack)
          end
      | TClose =>
          match stack with
          | [] => inl Malformed                      (* unbalanced ) *)
          | g :: stack' => parse_loop p' (push (close f) g) stack'
          end
      | TEscape =>
          match p' with
          | EmptyString => inl Malformed             (* bad escape *)
          | String e p'' =>
              if is_alnum e then inl Outside
              else parse_loop p'' (push (Chr e) f) stack
          end
      | TOther => inl Outside
      end
  end.

Definition parse (p : string) : parse_error + regex :=
  parse_loop p empty_frame [].

(** What [re.match] raises besides [re.error], when a pattern goes beyond
    the limits of the engine: [OverflowError] (a repetition count that is too
    large), [ValueError] (a repetition count of too many digits),
    [RecursionError] (groups nested too deep) and [MemoryError]. *)
Inductive fault :=
| Overflow
| Value (msg : string)
| Recursion
| Memory.

(** What [re.match(pattern, subject)] does: a match object, [None],
    [re.error], or one of the exceptions above. *)
Inductive re_result := ReMatch | ReNone | ReError | ReFault (f : fault).

(** [re.match] on the fragment; [None] for a pattern outside of it. *)
Definition fragment (pattern subject : string) : option re_result :=
  match parse pattern with
  | inr r => Some (if match_prefix r subject then ReMatch else ReNone)
  | inl Malformed => Some ReError
  | inl Outside => None
  end.

(** An engine: any total function standing for [re.match]. *)
Definition engine := string -> string -> re_result.

(** An engine is faithful when it answers as [fragment] does wherever
    [fragment] answers ([fragment] knows no limit of size or depth). *)
Definition faithful (re_match : engine) : Prop :=
  forall p s r, fragment p s = Some r -> re_match p s = r.

(** The engine used to run examples.  On a pattern outside the fragment
    it answers [ReError], which is not what Python does there: examples
    only use patterns of the fragment.  It has no limit of size or depth and
    so never answers [ReFault]. *)
Definition reference : engine :=
  fun p s => match fragment p s with Some r => r | None => ReError end.

(** A pattern without any special character. *)
Definition literal (p : string) : bool :=
  forallb (fun c => match classify c with TLit => true | _ => false end)
          (list_ascii_of_string p).

(** The frame reached after reading the characters [cs] as literals. *)
Definition pushes (cs : list ascii) (f : frame) : frame :=
  fold_left (fun g c => push (Chr c) g) cs f.

End Re.

(** ** Python values *)

Inductive seq_kind := KTuple | KList.

(** A sequence of strings. *)
Record pyseq := PySeq { kind : seq_kind; elems : list string }.

(** What the parameters [arg], [choices] and [args] hold when they are not
    [None]: a bare string or a sequence of strings. *)
Inductive value :=
| Str (s : string)
| Seq (q : pyseq).

Definition tuple (xs : list string) : pyseq := PySeq KTuple xs.

Definition seq_kind_eqb (k1 k2 : seq_kind) : bool :=
  match k1, k2 with
  | KTuple, KTuple | KList, KList => true
  | _, _ => false
  end.

Fixpoint list_eqb (xs ys : list string) : bool :=
  match xs, ys with
  | [], [] => true
  | x :: xs', y :: ys' => (x =? y) && list_eqb xs' ys'
  | _, _ => false
  end.

(** [q1 == q2]: a tuple never equals a list. *)
Definition pyseq_eqb (q1 q2 : pyseq) : bool :=
  seq_kind_eqb (kind q1) (kind q2) && list_eqb (elems q1) (elems q2).

(** [==] when the right-hand side may be [None]. *)
Definition py_eq (q : pyseq) (o : option pyseq) : bool :=
  match o with
  | None => false
  | Some q' => pyseq_eqb q q'
  end.

(** Truth value of a string or sequence: false when empty. *)
Definition truthy_value (v : value) : bool :=
  match v with
  | Str s => negb (s =? EmptyString)
  | Seq q => match elems q with [] => false | _ :: _ => true end
  end.

(** Truth value of an optional argument: [None] is false. *)
Definition truthy (v : option value) : bool :=
  match v with
  | None => false
  | Some v' => truthy_value v'
  end.

(** [tuple(s)] for a string [s]: its characters, each a string. *)
Definition chars (s : string) : list string :=
  map (fun c => String c EmptyString) (list_ascii_of_string s).

(** [len(xs)] as a Python integer. *)
Definition len (xs : list string) : Z := Z.of_nat (length xs).

(** [%i] applied to an integer. *)
Definition format_int (n : Z) : string := NilZero.string_of_int (Z.to_int n).

(** ** The class [ArgMatchError] *)

Record ArgMatchError := MkArgMatchError { _n : Z; _args : option pyseq }.

(** ** Exceptions and outcomes *)

(** The exceptions, by class.  [ValueError msg] is an instance of
    [ValueError] itself; [ArgMatchErr e] is an instance of [ArgMatchError],
    which is declared as a subclass of [ValueError]: see [is_ValueError]. *)
Inductive exn :=
| ValueError (msg : string)
| ArgMatchErr (e : ArgMatchError)
| PatternError                   (* [re.error] *)
| OverflowError
| RecursionError
| MemoryError
| TypeError
| IndexError
| AttributeError
| KeyError
| SyntaxError.

(** [isinstance(e, ValueError)], what [except ValueError] catches. *)
Definition is_ValueError (e : exn) : bool :=
  match e with
  | ValueError _ | ArgMatchErr _ => true
  | _ => false
  end.

(** The exception that a fault of the engine is. *)
Definition exn_of_fault (f : Re.fault) : exn :=
  match f with
  | Re.Overflow => OverflowError
  | Re.Value msg => ValueError msg
  | Re.Recursion => RecursionError
  | Re.Memory => MemoryError
  end.

Inductive outcome (A : Type) :=
| Return (a : A)
| Raise (e : exn).

Arguments Return {A} a.
Arguments Raise {A} e.

Definition bind {A B : Type} (m : outcome A) (k : A -> outcome B) : outcome B :=
  match m with
  | Return a => k a
  | Raise e => Raise e
  end.

Notation "x <- m ;; k" := (bind m (fun x => k))
  (at level 61, m at next level, right associativity).

(** [len(o)]: a [TypeError] on [None]. *)
Definition py_len (o : option pyseq) : outcome Z :=
  match o with
  | None => Raise TypeError
  | Some q => Return (len (elems q))
  end.

(** [o[0]]: a [TypeError] on [None], an [IndexError] on an empty sequence. *)
Definition first (o : option pyseq) : outcome string :=
  match o with
  | None => Raise TypeError
  | Some q => match elems q with
              | [] => Raise IndexError
              | x :: _ => Return x
              end
  end.

(** [for x in o]: a [TypeError] on [None]. *)
Definition iterate (o : option pyseq) : outcome (list string) :=
  match o with
  | None => Raise TypeError
  | Some q => Return (elems q)
  end.

(** The property [n]. *)
Definition ArgMatchError_n (self : ArgMatchError) : Z := _n self.

(** The property [args]: [None] when [_args] is falsy, else its elements as
    a tuple. *)
Definition ArgMatchError_args (self : ArgMatchError) : option (list string) :=
  match _args self with
  | None => None
  | Some q => match elems q with
              | [] => None
              | x :: xs => Some (x :: xs)
              end
  end.

(** The first statement of [__init__]: a bare string becomes the tuple of
    its characters. *)
Definition as_args (args : option value) : option pyseq :=
  match args with
  | Some (Str s) => Some (tuple (chars s))
  | Some (Seq q) => Some q
  | None => None
  end.

(** [ArgMatchError.__init__] *)
Definition ArgMatchError_init (n : Z) (args : option value)
  : outcome ArgMatchError :=
  let args : option pyseq := as_args args in
  let self := MkArgMatchError n args in
  if (ArgMatchError_n self <? 0)%Z then
    Raise (ValueError "'n' must be a positive integer")
  else
    match ArgMatchError_args self with
    | None => Return self
    | Some _ =>
        if (ArgMatchError_n self =? 0)%Z then Return self
        else
          l <- py_len args ;;
          if negb (ArgMatchError_n self =? l)%Z then
            Raise (ValueError "'args' must be of length 'n' when provided")
          else Return self
    end.

(** ["', '".join(xs)] *)
Definition join_quoted (xs : list string) : string := String.concat "', '" xs.

(** [ArgMatchError.__str__] *)
Definition ArgMatchError_str (self : ArgMatchError) : outcome string :=
  if negb (ArgMatchError_n self =? 0)%Z then
    let msg := "Too many matches (" ++ format_int (ArgMatchError_n self) ++ ")" in
    match ArgMatchError_args self with
    | Some xs => Return (msg ++ ", found '" ++ join_quoted xs ++ "'")
    | None => Return msg
    end
  else
    let msg := "No argument match found" in
    match ArgMatchError_args self with
    | None => Raise TypeError                        (* [len(None)] *)
    | Some xs =>
        if (length xs =? 1)%nat then
          x <- first (Some (tuple xs)) ;;
          Return (msg ++ ", should be '" ++ x ++ "'")
        else
          match xs with
          | _ :: _ => Return (msg ++ ", should be one of '" ++ join_quoted xs ++ "'")
          | [] => Return msg
          end
    end.

(** ** The function [arg_match] *)

(** *** Lines 116 to 125: the choices found in the signature of the caller

    What the libraries [inspect] and [ast] report is data; what the source
    does with it is [inspect_caller]. *)

(** A node of the syntax tree of the calling line, as far as the source
    looks at it: a call with its positional arguments, a name, a node with a
    [value] attribute (an assignment, an expression statement, a [return],
    an attribute, a constant ...), which holds a node or not, or any other
    node. *)
Inductive node :=
| Call (args : list node)
| Name (id : string)
| WithValue (value : option node)
| OtherNode.

(** The default of a parameter: [inspect.Parameter.empty], [None], or a
    string or sequence of strings.  Defaults of other types are not
    modelled. *)
Inductive default :=
| NoDefault
| NoneDefault
| Val (v : value).

(** The parameters of a signature, with their defaults. *)
Definition signature := list (string * default).

(** The record that [inspect.getouterframes(curr, 2)[1]] gives for the
    caller, with what the libraries compute from it:
    [parsed] is [ast.parse(caller.code_context[-1].strip()).body], or what
    [ast.parse] raises; [f_globals] maps a global name to
    [inspect.signature] of the object it is bound to, or to what
    [inspect.signature] raises on it. *)
Record caller_frame := CallerFrame {
  code_context : option (list string);
  parsed : outcome (list node);
  function : string;
  f_globals : list (string * outcome signature)
}.

(** [d[key]] on a dictionary. *)
Fixpoint lookup {A : Type} (key : string) (d : list (string * A)) : option A :=
  match d with
  | [] => None
  | (k, v) :: rest => if (k =? key)%string then Some v else lookup key rest
  end.

Definition getitem {A : Type} (key : string) (d : list (string * A)) : outcome A :=
  match lookup key d with
  | Some v => Return v
  | None => Raise KeyError
  end.

(** [xs[0]] on a list. *)
Definition index0 {A : Type} (xs : list A) : outcome A :=
  match xs with
  | [] => Raise IndexError
  | x :: _ => Return x
  end.

(** Lines 121 and 122: [while not isinstance(call, ast.Call): call =
    call.value]; the arguments of the call that is reached.  A node without
    a [value] attribute, or whose [value] is not a node, ends the loop with
    an [AttributeError]. *)
Fixpoint find_call (n : node) : outcome (list node) :=
  match n with
  | Call args => Return args
  | WithValue (Some v) => find_call v
  | WithValue None | Name _ | OtherNode => Raise AttributeError
  end.

(** [n.id]: only a name has one. *)
Definition node_id (n : node) : outcome string :=
  match n with
  | Name id => Return id
  | _ => Raise AttributeError
  end.

(** Lines 120 to 125, once the code context is there. *)
Definition default_of_caller (f : caller_frame) : outcome default :=
  body <- parsed f ;;
  stmt <- index0 body ;;
  args <- find_call stmt ;;
  arg0 <- index0 args ;;
  arg_id <- node_id arg0 ;;
  sig <- getitem (function f) (f_globals f) ;;
  sig <- sig ;;
  getitem arg_id sig.

(** What the inspection of the calling frame yields. *)
Inductive caller_context :=
| NoCodeContext                  (* [caller.code_context] is empty *)
| Unresolved (e : exn)           (* the call or the parameter is not found *)
| Default (d : option value).    (* the default of the caller's parameter *)

(** The default as the value of [choices].  [inspect.Parameter.empty]
    behaves as [None] does in what follows: it is not a string, cannot be
    subscripted or iterated, and equals no tuple and no list. *)
Definition choices_of_default (d : default) : option value :=
  match d with
  | NoDefault | NoneDefault => None
  | Val v => Some v
  end.

(** Lines 116 to 125. *)
Definition inspect_caller (f : caller_frame) : caller_context :=
  match code_context f with
  | None | Some [] => NoCodeContext
  | Some (_ :: _) =>
      match default_of_caller f with
      | Return d => Default (choices_of_default d)
      | Raise e => Unresolved e
      end
  end.

Definition resolve_choices (caller : caller_context) : outcome (option value) :=
  match caller with
  | NoCodeContext => Raise (ValueError "Cannot determine code context")
  | Unresolved e => Raise e
  | Default d => Return d
  end.

(** A bare string is wrapped in a one-element tuple. *)
Definition as_seq (v : value) : pyseq :=
  match v with
  | Str s => tuple [s]
  | Seq q => q
  end.

(** The value returned: one string, or the tuple of all matches. *)
Inductive result :=
| One (s : string)
| Many (xs : list string).

Section Matcher.

Variable re_match : Re.engine.

(** [re.match(y, x)] used as a condition. *)
Definition matches (y x : string) : outcome bool :=
  match re_match y x with
  | Re.ReMatch => Return true
  | Re.ReNone => Return false
  | Re.ReError => Raise PatternError
  | Re.ReFault f => Raise (exn_of_fault f)
  end.

(** [x for x in choices if re.match(y, x)] *)
Fixpoint select (y : string) (choices : list string) : outcome (list string) :=
  match choices with
  | [] => Return []
  | x :: rest =>
      m <- matches y x ;;
      more <- select y rest ;;
      Return (if m then x :: more else more)
  end.

(** [tuple(x for y in arg for x in choices if re.match(y, x))] *)
Fixpoint find_matches (arg : list string) (choices : option pyseq)
  : outcome (list string) :=
  match arg with
  | [] => Return []
  | y :: ys =>
      xs <- iterate choices ;;
      here <- select y xs ;;
      more <- find_matches ys choices ;;
      Return (here ++ more)%list
  end.

Definition arg_match (caller : caller_context)
           (arg : option value) (choices : option value) (multiple : bool)
  : outcome result :=
  choices <- (if negb (truthy choices) then resolve_choices caller
              else Return choices) ;;
  let choices : option pyseq := option_map as_seq choices in
  match arg with
  | None => x <- first choices ;; Return (One x)
  | Some a =>
      if negb (truthy_value a) then x <- first choices ;; Return (One x)
      else
        let arg := as_seq a in
        if negb multiple && py_eq arg choices then
          x <- first (Some arg) ;; Return (One x)
        else if negb multiple && (1 <? len (elems arg))%Z then
          Raise (ValueError "'arg' must be of length 1")
        else
          matches <- find_matches (elems arg) choices ;;
          match matches with
          | [] =>
              e <- ArgMatchError_init 0 (option_map Seq choices) ;;
              Raise (ArgMatchErr e)
          | _ :: _ =>
              if (1 <? len matches)%Z && negb multiple then
                e <- ArgMatchError_init (len matches)
                                        (Some (Seq (tuple matches))) ;;
                Raise (ArgMatchErr e)
              else if (len matches =? 1)%Z then
                x <- first (Some (tuple matches)) ;; Return (One x)
              else Return (Many matches)
          end
  end.

End Matcher.

(** The function [_f] at the end of the module, called as [_f(x)]: its call
    of [arg_match] passes no [choices].  The frame of [_f] when it calls
    [arg_match]: the two lines of context, the statement [x = arg_match(x)]
    parsed, and the globals of the module with their signatures. *)
Definition _f_default : value := Seq (tuple ["aa"; "ab"]).

Definition _f_frame : caller_frame :=
  {| code_context := Some ["def _f(x=('aa', 'ab'), y=None):";
                           "    x = arg_match(x)"];
     parsed := Return [WithValue (Some (Call [Name "x"]))];
     function := "_f";
     f_globals :=
       [("ArgMatchError", Return [("n", NoDefault); ("args", NoneDefault)]);
        ("arg_match", Return [("arg", NoneDefault); ("choices", NoneDefault);
                              ("multiple", NoDefault)]);
        ("_f", Return [("x", Val _f_default); ("y", NoneDefault)])] |}.

Definition _f (re_match : Re.engine) (x : option value) : outcome result :=
  arg_match re_match (inspect_caller _f_frame) x None false.

(** The same frame when the source of the module cannot be read (in an
    interactive session, say): there is no code context, and so no line to
    parse. *)
Definition _f_frame_without_source : caller_frame :=
  {| code_context := None;
     parsed := Raise TypeError;
     function := function _f_frame;
     f_globals := f_globals _f_frame |}.

(** ** Notions used to state the properties *)

(** [re.match(y, x)] read as a condition, when it does not raise. *)
Definition is_match (r : Re.re_result) : bool :=
  match r with
  | Re.ReMatch => true
  | Re.ReNone | Re.ReError | Re.ReFault _ => false
  end.

(** The matches as the specification words them: for every element of the
    candidate, in order, every choice, in order, that it matches. *)
Definition matches_spec (re_match : Re.engine) (candidate choices : list string)
  : list string :=
  flat_map (fun c => filter (fun ch => is_match (re_match c ch)) choices)
           candidate.

(** The engine raises [e] on some candidate element against some choice. *)
Definition raised_by_engine (re_match : Re.engine) (e : exn)
           (arg choices : list string) : Prop :=
  exists y x, In y arg /\ In x choices /\ matches re_match y x = Raise e.

(** The choices of the examples of the specification. *)
Definition aa_ab : value := Seq (tuple ["aa"; "ab"]).

(** The items of an error as its constructor receives them. *)
Definition items_of (args : option value) : list string :=
  match as_args args with
  | Some q => elems q
  | None => []
  end.

(** ** The matching engine is sound and complete for its patterns *)

Module ReFacts.
Import Re.

Lemma app_empty (s1 s2 : string) :
  s1 ++ s2 = EmptyString -> s1 = EmptyString /\ s2 = EmptyString.
Proof.
  destruct s1; simpl; intros H; [ split; [ reflexivity | exact H ] | discriminate ].
Qed.

Lemma app_empty_r (s : string) : s ++ EmptyString = s.
Proof. induction s as [| c s IH]; simpl; [ | rewrite IH ]; reflexivity. Qed.

Lemma app_assoc (s1 s2 s3 : string) : (s1 ++ s2) ++ s3 = s1 ++ (s2 ++ s3).
Proof. induction s1 as [| c s1 IH]; simpl; [ | rewrite IH ]; reflexivity. Qed.

Lemma app_cancel_l (p s t : string) : p ++ s = p ++ t -> s = t.
Proof.
  induction p as [| c p IH]; simpl; intros H; [ exact H | ].
  apply IH. now inversion H.
Qed.

Lemma lang_empty_inv (s : string) : ~ lang Empty s.
Proof. intros H; inversion H. Qed.

Lemma nullable_lang (r : regex) : nullable r = true <-> lang r EmptyString.
Proof.
  induction r as [| | c | | r1 IH1 r2 IH2 | r1 IH1 r2 IH2 | r IH]; simpl.
  - split; [ discriminate | intros H; inversion H ].
  - split; [ constructor | reflexivity ].
  - split; [ discriminate | intros H; inversion H ].
  - split; [ discriminate | intros H; inversion H ].
  - rewrite andb_true_iff, IH1, IH2. split.
    + intros [H1 H2]. change EmptyString with (EmptyString ++ EmptyString).
      now constructor.
    + intros H. inversion H; subst.
      match goal with
      | E : _ ++ _ = EmptyString |- _ => apply app_empty in E; destruct E; subst
      end.
      now split.
  - rewrite orb_true_iff, IH1, IH2. split.
    + intros [H | H]; [ now apply lang_alt_l | now apply lang_alt_r ].
    + intros H. inversion H; subst; [ now left | now right ].
  - split; [ constructor | reflexivity ].
Qed.

Lemma deriv_sound (a : ascii) (r : regex) :
  forall s, lang (deriv a r) s -> lang r (String a s).
Proof.
  induction r as [| | c | | r1 IH1 r2 IH2 | r1 IH1 r2 IH2 | r IH];
    simpl; intros s H.
  - inversion H.
  - inversion H.
  - destruct (Ascii.eqb_spec c a) as [-> |]; inversion H; subst. constructor.
  - destruct (Ascii.eqb_spec a newline) as [| Hn]; inversion H; subst.
    now constructor.
  - assert (Hcat : forall t, lang (Cat (deriv a r1) r2) t ->
                             lang (Cat r1 r2) (String a t)).
    { intros t Ht. inversion Ht; subst.
      match goal with
      | |- lang _ (String a (?s1 ++ ?s2)) =>
          change (String a (s1 ++ s2)) with (String a s1 ++ s2)
      end.
      constructor; [ now apply IH1 | assumption ]. }
    destruct (nullable r1) eqn:Hnull; [ | now apply Hcat ].
    inversion H; subst; [ now apply Hcat | ].
    change (String a s) with (EmptyString ++ String a s).
    constructor; [ now apply nullable_lang | now apply IH2 ].
  - inversion H; subst; [ apply lang_alt_l | apply lang_alt_r ]; auto.
  - inversion H; subst.
    match goal with
    | |- lang _ (String a (?s1 ++ ?s2)) =>
        change (String a (s1 ++ s2)) with (String a s1 ++ s2)
    end.
    constructor; [ now apply IH | assumption ].
Qed.

Lemma deriv_complete (a : ascii) (r : regex) (w : string) :
  lang r w -> forall s, w = String a s -> lang (deriv a r) s.
Proof.
  induction 1 as [| c | c Hc | r1 r2 s1 s2 H1 IH1 H2 IH2
                  | r1 r2 w H1 IH1 | r1 r2 w H2 IH2
                  | r | r s1 s2 H1 IH1 H2 IH2];
    intros s Heq; simpl.
  - discriminate.
  - inversion Heq; subst. rewrite Ascii.eqb_refl. constructor.
  - inversion Heq; subst.
    destruct (Ascii.eqb_spec a newline); [ contradiction | constructor ].
  - destruct s1 as [| b s1']; simpl in Heq.
    + apply nullable_lang in H1. rewrite H1. apply lang_alt_r. now apply IH2.
    + inversion Heq; subst.
      assert (Hc : lang (Cat (deriv a r1) r2) (s1' ++ s2))
        by (constructor; [ now apply IH1 | assumption ]).
      destruct (nullable r1); [ now apply lang_alt_l | assumption ].
  - apply lang_alt_l. now apply IH1.
  - apply lang_alt_r. now apply IH2.
  - discriminate.
  - destruct s1 as [| b s1']; simpl in Heq.
    + now apply IH2.
    + inversion Heq; subst. constructor; [ now apply IH1 | assumption ].
Qed.

Lemma deriv_lang (a : ascii) (r : regex) (s : string) :
  lang (deriv a r) s <-> lang r (String a s).
Proof.
  split; [ apply deriv_sound | intros H; now apply (deriv_complete a r _ H) ].
Qed.

(** [match_prefix] finds exactly the subjects that start with a word of
    the pattern. *)
Lemma match_prefix_lang (s : string) :
  forall r, match_prefix r s = true <->
            exists s1 s2, s = s1 ++ s2 /\ lang r s1.
Proof.
  induction s as [| a s IH]; intros r; simpl.
  - rewrite orb_false_r, nullable_lang. split.
    + intros H. now exists EmptyString, EmptyString.
    + intros (s1 & s2 & Heq & H). symmetry in Heq.
      apply app_empty in Heq. destruct Heq; now subst.
  - rewrite orb_true_iff, nullable_lang, IH. split.
    + intros [H | (s1 & s2 & -> & H)].
      * now exists EmptyString, (String a s).
      * exists (String a s1), s2. split; [ reflexivity | now apply deriv_lang ].
    + intros (s1 & s2 & Heq & H). destruct s1 as [| b s1']; simpl in Heq.
      * now left.
      * inversion Heq; subst. right. exists s1', s2.
        split; [ reflexivity | now apply deriv_lang ].
Qed.

(** *** Patterns without special characters *)

Lemma prefix_app (p s : string) :
  prefix p s = true <-> exists t, s = p ++ t.
Proof.
  revert s. induction p as [| c p IH]; intros s; destruct s as [| d s]; simpl.
  - split; [ intros _; now exists EmptyString | reflexivity ].
  - split; [ intros _; now exists (String d s) | reflexivity ].
  - split; [ discriminate | intros [t Ht]; discriminate ].
  - destruct (ascii_dec c d) as [-> | Hcd].
    + rewrite IH. split; intros [t Ht]; exists t.
      * now rewrite Ht.
      * now inversion Ht.
    + split; [ discriminate | intros [t Ht]; inversion Ht; congruence ].
Qed.

Lemma parse_loop_literal (p : string) :
  literal p = true ->
  forall f, parse_loop p f [] = inr (close (pushes (list_ascii_of_string p) f)).
Proof.
  unfold literal.
  induction p as [| c p IH]; simpl; intros H f; [ reflexivity | ].
  apply andb_true_iff in H. destruct H as [Hc Hp].
  destruct (classify c); try discriminate. now apply IH.
Qed.

Lemma alts_pushes (cs : list ascii) :
  forall f, alts (pushes cs f) = alts f.
Proof.
  induction cs as [| c cs IH]; intros f; simpl; [ reflexivity | ].
  unfold pushes in IH. now rewrite IH.
Qed.

Lemma lang_pushes (cs : list ascii) :
  forall f s,
    lang (branch (pushes cs f)) s <->
    exists s1, lang (branch f) s1 /\ s = s1 ++ string_of_list_ascii cs.
Proof.
  induction cs as [| c cs IH]; intros f s; simpl.
  - split.
    + intros H. exists s. now rewrite app_empty_r.
    + intros (s1 & H & ->). now rewrite app_empty_r.
  - unfold pushes in IH. rewrite IH. unfold push at 1, branch at 1. simpl.
    split.
    + intros (s1 & H & ->). inversion H; subst.
      match goal with
      | Hc : lang (Chr c) _ |- _ => inversion Hc; subst
      end.
      eexists. split; [ eassumption | ]. now rewrite app_assoc.
    + intros (s1 & H & ->). exists (s1 ++ String c EmptyString).
      split; [ constructor; [ assumption | constructor ] | ].
      now rewrite app_assoc.
Qed.

(** A pattern without special characters is parsed to a pattern whose
    only word is itself. *)
Lemma parse_literal (p : string) :
  literal p = true ->
  exists r, parse p = inr r /\ forall w, lang r w <-> w = p.
Proof.
  intros H. unfold parse. rewrite (parse_loop_literal p H).
  eexists. split; [ reflexivity | ]. intros w.
  unfold close. rewrite alts_pushes. simpl. rewrite lang_pushes.
  unfold branch; simpl. rewrite string_of_list_ascii_of_string. split.
  - intros (s1 & Hs1 & ->). now inversion Hs1.
  - intros ->. exists EmptyString. split; [ constructor | reflexivity ].
Qed.

(** On such a pattern the match is the test [subject.startswith(pattern)]. *)
Lemma fragment_literal (p s : string) :
  literal p = true ->
  fragment p s = Some (if prefix p s then ReMatch else ReNone).
Proof.
  intros H. destruct (parse_literal p H) as (r & Hr & Hl).
  unfold fragment. rewrite Hr. f_equal.
  assert (Heq : match_prefix r s = prefix p s).
  { apply eq_true_iff_eq. rewrite match_prefix_lang, prefix_app. split.
    - intros (s1 & s2 & -> & Hs1). apply Hl in Hs1. subst. now exists s2.
    - intros [t ->]. exists p, t. split; [ reflexivity | now apply Hl ]. }
  now rewrite Heq.
Qed.

Lemma faithful_literal (re_match : engine) (p s : string) :
  faithful re_match -> literal p = true ->
  re_match p s = if prefix p s then ReMatch else ReNone.
Proof. intros Hf Hp. apply Hf. now apply fragment_literal. Qed.

Lemma reference_faithful : faithful reference.
Proof. intros p s r H. unfold reference. now rewrite H. Qed.

Lemma prefix_refl (p : string) : prefix p p = true.
Proof. apply prefix_app. exists EmptyString. now rewrite app_empty_r. Qed.

End ReFacts.

(** ** Equality of sequences *)

Lemma list_eqb_eq (xs ys : list string) : list_eqb xs ys = true <-> xs = ys.
Proof.
  revert ys. induction xs as [| x xs IH]; intros [| y ys]; simpl;
    try (split; [ reflexivity || discriminate | reflexivity || discriminate ]).
  rewrite andb_true_iff, String.eqb_eq, IH. split.
  - intros [-> ->]. reflexivity.
  - intros H. inversion H. now split.
Qed.

Lemma pyseq_eqb_eq (q1 q2 : pyseq) : pyseq_eqb q1 q2 = true <-> q1 = q2.
Proof.
  destruct q1 as [k1 xs], q2 as [k2 ys]. unfold pyseq_eqb. simpl.
  rewrite andb_true_iff, list_eqb_eq. split.
  - intros [Hk ->]. destruct k1, k2; simpl in Hk; congruence.
  - intros H. inversion H; subst. split; [ now destruct k2 | reflexivity ].
Qed.

Lemma pyseq_eqb_refl (q : pyseq) : pyseq_eqb q q = true.
Proof. now apply pyseq_eqb_eq. Qed.

(** ** Constructing the errors that [arg_match] raises *)

Lemma len_nonneg (xs : list string) : (0 <= len xs)%Z.
Proof. unfold len. lia. Qed.

Lemma init_zero (args : option value) :
  ArgMatchError_init 0 args = Return (MkArgMatchError 0 (as_args args)).
Proof.
  unfold ArgMatchError_init. simpl.
  now destruct (ArgMatchError_args _).
Qed.

Lemma init_len (xs : list string) :
  ArgMatchError_init (len xs) (Some (Seq (tuple xs)))
  = Return (MkArgMatchError (len xs) (Some (tuple xs))).
Proof.
  unfold ArgMatchError_init, ArgMatchError_n. simpl.
  pose proof (len_nonneg xs) as Hl.
  destruct (Z.ltb_spec (len xs) 0) as [Hneg | _]; [ lia | ].
  destruct (ArgMatchError_args _); [ | reflexivity ].
  destruct (len xs =? 0)%Z; [ reflexivity | ].
  simpl. now rewrite Z.eqb_refl.
Qed.

(** ** The matches *)

Section MatcherFacts.

Variable re_match : Re.engine.
Variable caller : caller_context.

Lemma select_filter (y : string) (xs m : list string) :
  select re_match y xs = Return m ->
  m = filter (fun x => is_match (re_match y x)) xs.
Proof.
  revert m. induction xs as [| x xs IH]; simpl; intros m H.
  - now inversion H.
  - unfold matches in H.
    destruct (select re_match y xs) as [more |].
    + specialize (IH more eq_refl).
      destruct (re_match y x); simpl in H; inversion H; now subst.
    + destruct (re_match y x); simpl in H; discriminate.
Qed.

(** The matches that the code collects are those that the specification
    describes. *)
Lemma find_matches_spec (arg : list string) (c : pyseq) (m : list string) :
  find_matches re_match arg (Some c) = Return m ->
  m = matches_spec re_match arg (elems c).
Proof.
  revert m. induction arg as [| y ys IH]; simpl; intros m H.
  - now inversion H.
  - destruct (select re_match y (elems c)) as [here |] eqn:Hs; simpl in H;
      try discriminate.
    destruct (find_matches re_match ys (Some c)) as [more |]; simpl in H;
      try discriminate.
    inversion H; subst. rewrite (select_filter _ _ _ Hs).
    now rewrite (IH more).
Qed.

Lemma matches_spec_incl (arg cs : list string) (x : string) :
  In x (matches_spec re_match arg cs) -> In x cs.
Proof.
  unfold matches_spec. rewrite in_flat_map.
  intros (y & _ & H). apply filter_In in H. tauto.
Qed.

Lemma select_raises (y : string) (xs : list string) (e : exn) :
  select re_match y xs = Raise e ->
  exists x, In x xs /\ matches re_match y x = Raise e.
Proof.
  induction xs as [| x xs IH]; simpl; [ discriminate | ].
  destruct (matches re_match y x) as [m | e'] eqn:Hm; simpl.
  - destruct (select re_match y xs); simpl; [ discriminate | ].
    intros H. destruct (IH H) as (x' & Hin & Hx'). eauto.
  - intros H. inversion H; subst. eauto.
Qed.

(** Whatever comes out of the collection of the matches was raised by the
    engine on one of the pairs. *)
Lemma find_matches_raises (arg : list string) (c : pyseq) (e : exn) :
  find_matches re_match arg (Some c) = Raise e ->
  raised_by_engine re_match e arg (elems c).
Proof.
  unfold raised_by_engine.
  induction arg as [| y ys IH]; simpl; [ discriminate | ].
  destruct (select re_match y (elems c)) eqn:Hs; simpl.
  - destruct (find_matches re_match ys (Some c)); simpl; [ discriminate | ].
    intros H. destruct (IH H) as (y' & x & Hy & Hx & Hre).
    exists y', x. auto.
  - intros H. inversion H; subst.
    destruct (select_raises _ _ _ Hs) as (x & Hx & Hre).
    exists y, x. auto.
Qed.

Lemma len_several (x y : string) (m : list string) :
  (1 <? len (x :: y :: m))%Z = true /\ (len (x :: y :: m) =? 1)%Z = false.
Proof.
  unfold len. simpl length. split; [ apply Z.ltb_lt | apply Z.eqb_neq ]; lia.
Qed.

Lemma truthy_first (v : value) :
  truthy_value v = true -> exists c rest, elems (as_seq v) = c :: rest.
Proof.
  destruct v as [s | [k [| c rest]]]; simpl; try discriminate; eauto.
Qed.

(** With explicit choices the frame of the caller is not read. *)
Lemma arg_match_given (arg : option value) (choices : value) (multiple : bool) :
  truthy_value choices = true ->
  arg_match re_match caller arg (Some choices) multiple =
  let choices := Some (as_seq choices) in
  match arg with
  | None => x <- first choices ;; Return (One x)
  | Some a =>
      if negb (truthy_value a) then x <- first choices ;; Return (One x)
      else
        let arg := as_seq a in
        if negb multiple && py_eq arg choices then
          x <- first (Some arg) ;; Return (One x)
        else if negb multiple && (1 <? len (elems arg))%Z then
          Raise (ValueError "'arg' must be of length 1")
        else
          matches <- find_matches re_match (elems arg) choices ;;
          match matches with
          | [] => Raise (ArgMatchErr (MkArgMatchError 0 choices))
          | _ :: _ =>
              if (1 <? len matches)%Z && negb multiple then
                Raise (ArgMatchErr
                         (MkArgMatchError (len matches) (Some (tuple matches))))
              else if (len matches =? 1)%Z then
                x <- first (Some (tuple matches)) ;; Return (One x)
              else Return (Many matches)
          end
  end.
Proof.
  intros H. unfold arg_match. simpl. rewrite H. simpl.
  destruct arg as [a |]; [ | reflexivity ].
  destruct (negb (truthy_value a)); [ reflexivity | ].
  destruct (negb multiple && _); [ reflexivity | ].
  destruct (negb multiple && _); [ reflexivity | ].
  destruct (find_matches _ _ _) as [m |]; [ | reflexivity ]. simpl.
  destruct m as [| x m]; [ now rewrite init_zero | ].
  now rewrite init_len.
Qed.

(** ** Properties of [arg_match] *)

(** C6: with non-empty choices and whatever [multiple] is, an absent or
    empty candidate makes [arg_match] return the first choice, as a single
    value. *)
Theorem C6_default_is_first_choice
        (arg : option value) (choices : value) (multiple : bool)
        (c : string) (rest : list string) :
  truthy_value choices = true ->
  elems (as_seq choices) = c :: rest ->
  truthy arg = false ->
  arg_match re_match caller arg (Some choices) multiple = Return (One c).
Proof.
  intros Hc Hfirst Harg. rewrite (arg_match_given _ _ _ Hc). simpl.
  unfold first; simpl.
  destruct arg as [a |]; simpl in Harg; [ rewrite Harg; simpl | ];
    now rewrite Hfirst.
Qed.

(** C3: when [multiple] is false, a candidate equal to the choices makes
    [arg_match] return the first choice, and any other candidate of more
    than one element makes it raise [ValueError]: the comparison comes
    before the test on the length, so passing the choices through, however
    many they are, is not an error. *)
Theorem C3_equality_before_length
        (arg choices : value) (c : string) (rest : list string) :
  truthy_value choices = true ->
  elems (as_seq choices) = c :: rest ->
  (as_seq arg = as_seq choices ->
   arg_match re_match caller (Some arg) (Some choices) false = Return (One c))
  /\ (as_seq arg <> as_seq choices ->
      (1 < length (elems (as_seq arg)))%nat ->
      arg_match re_match caller (Some arg) (Some choices) false
      = Raise (ValueError "'arg' must be of length 1")).
Proof.
  intros Hc Hfirst. rewrite (arg_match_given _ _ _ Hc). simpl. split.
  - intros Heq. unfold first; simpl.
    destruct (truthy_value arg); simpl; [ | now rewrite Hfirst ].
    rewrite Heq, pyseq_eqb_refl, Hfirst. reflexivity.
  - intros Hneq Hlen.
    assert (Ht : truthy_value arg = true).
    { destruct arg as [s | [k [| y ys]]]; simpl in *; try lia; reflexivity. }
    rewrite Ht. simpl.
    destruct (pyseq_eqb (as_seq arg) (as_seq choices)) eqn:He.
    + apply pyseq_eqb_eq in He. contradiction.
    + assert (Hl : (1 <? len (elems (as_seq arg)))%Z = true)
        by (apply Z.ltb_lt; unfold len; lia).
      now rewrite Hl.
Qed.

(** C10: with non-empty choices, whatever [arg_match] returns was among
    the choices: a single value is one of them, and a sequence, which is
    only returned when [multiple] is true and the matches are several, is
    made of them. *)
Theorem C10_result_among_choices
        (arg : option value) (choices : value) (multiple : bool) (r : result) :
  truthy_value choices = true ->
  arg_match re_match caller arg (Some choices) multiple = Return r ->
  match r with
  | One x => In x (elems (as_seq choices))
  | Many xs =>
      multiple = true /\ (1 < length xs)%nat
      /\ Forall (fun x => In x (elems (as_seq choices))) xs
  end.
Proof.
  intros Hc. rewrite (arg_match_given _ _ _ Hc). simpl.
  destruct (truthy_first _ Hc) as (c & rest & Hfirst).
  assert (Hdefault : forall r',
             (x <- first (Some (as_seq choices)) ;; Return (One x)) = Return r' ->
             match r' with
             | One x => In x (elems (as_seq choices))
             | Many xs => multiple = true /\ (1 < length xs)%nat
                          /\ Forall (fun x => In x (elems (as_seq choices))) xs
             end).
  { intros r'. unfold first; simpl. rewrite Hfirst. simpl.
    intros H. inversion H; subst. now left. }
  destruct arg as [a |]; [ | apply Hdefault ].
  destruct (truthy_value a) eqn:Ha; simpl; [ | apply Hdefault ].
  destruct (negb multiple && pyseq_eqb (as_seq a) (as_seq choices)) eqn:Heq.
  - apply andb_true_iff in Heq. destruct Heq as [_ Heq].
    apply pyseq_eqb_eq in Heq. rewrite Heq. apply Hdefault.
  - destruct (negb multiple && (1 <? len (elems (as_seq a)))%Z);
      [ intros H; discriminate H | ].
    destruct (find_matches _ _ _) as [m |] eqn:Hm; simpl;
      [ | intros H; discriminate H ].
    apply find_matches_spec in Hm.
    assert (Hin : forall x, In x m -> In x (elems (as_seq choices)))
      by (intros x Hx; subst m; eapply matches_spec_incl; eassumption).
    destruct m as [| x [| y m']]; [ intros H; discriminate H | | ].
    + destruct multiple; simpl; intros H; inversion H; subst;
        apply Hin; now left.
    + destruct (len_several x y m') as [Hlt Hne]. rewrite Hlt, Hne.
      destruct multiple; simpl; [ | intros H; discriminate H ].
      intros H. inversion H; subst. clear H.
      split; [ reflexivity | ]. split; [ simpl; lia | ].
      now apply Forall_forall.
Qed.

(** C9, amended: with non-empty choices [arg_match] returns, or raises
    [ArgMatchError], or raises the [ValueError] of line 137, or raises the
    exception that the regular-expression engine raised on an element of
    the candidate ([re.error] for a pattern that is not well formed,
    [OverflowError], [ValueError], [RecursionError] or [MemoryError] for a
    pattern beyond the limits of the engine); nothing else is raised. *)
Theorem C9_returns_or_documented_failure
        (arg : option value) (choices : value) (multiple : bool) :
  truthy_value choices = true ->
  (exists r, arg_match re_match caller arg (Some choices) multiple = Return r)
  \/ (exists e, arg_match re_match caller arg (Some choices) multiple
                = Raise (ArgMatchErr e))
  \/ (arg_match re_match caller arg (Some choices) multiple
      = Raise (ValueError "'arg' must be of length 1"))
  \/ (exists e a,
         arg = Some a
         /\ arg_match re_match caller arg (Some choices) multiple = Raise e
         /\ raised_by_engine re_match e (elems (as_seq a))
                             (elems (as_seq choices))
         /\ (e = PatternError \/ exists f, e = exn_of_fault f)).
Proof.
  intros Hc. rewrite (arg_match_given _ _ _ Hc). simpl.
  destruct (truthy_first _ Hc) as (c & rest & Hfirst).
  assert (Hdefault : exists r,
             (x <- first (Some (as_seq choices)) ;; Return (One x)) = Return r).
  { unfold first; simpl. rewrite Hfirst. simpl. eauto. }
  destruct arg as [a |]; [ | now left ].
  destruct (truthy_value a) eqn:Ha; simpl; [ | now left ].
  destruct (negb multiple && pyseq_eqb (as_seq a) (as_seq choices)) eqn:Heq.
  - apply andb_true_iff in Heq. destruct Heq as [_ Heq].
    apply pyseq_eqb_eq in Heq. rewrite Heq. now left.
  - destruct (negb multiple && (1 <? len (elems (as_seq a)))%Z);
      [ right; right; left; reflexivity | ].
    destruct (find_matches _ _ _) as [m | e] eqn:Hm; simpl.
    + destruct m as [| x m']; [ right; left; eauto | ].
      destruct ((1 <? len (x :: m'))%Z && negb multiple);
        [ right; left; eauto | ].
      destruct (len (x :: m') =? 1)%Z; left; unfold first; simpl; eauto.
    + apply find_matches_raises in Hm.
      right; right; right. exists e, a.
      split; [ reflexivity | ]. split; [ reflexivity | ].
      split; [ exact Hm | ].
      destruct Hm as (y & x & _ & _ & Hyx). unfold matches in Hyx.
      destruct (re_match y x); inversion Hyx; subst; eauto.
Qed.

(** C1, amended: the matches are collected candidate element by candidate
    element, in order, and for each of them choice by choice, in order,
    keeping every choice that the element matches, duplicates included.
    When there is exactly one match and either [multiple] is true or the
    candidate has a single element, that match is returned; when
    [multiple] is true and the matches are several, they are all returned
    in that order. *)
Theorem C1_matches_and_result
        (q : pyseq) (choices : value) (multiple : bool) (m : list string) :
  truthy_value choices = true ->
  find_matches re_match (elems q) (Some (as_seq choices)) = Return m ->
  m = matches_spec re_match (elems q) (elems (as_seq choices))
  /\ (multiple = true \/ length (elems q) = 1%nat ->
      forall x, m = [x] ->
                arg_match re_match caller (Some (Seq q)) (Some choices) multiple
                = Return (One x))
  /\ (multiple = true -> (1 < length m)%nat ->
      arg_match re_match caller (Some (Seq q)) (Some choices) multiple
      = Return (Many m)).
Proof.
  intros Hc Hm. pose proof (find_matches_spec _ _ _ Hm) as Hspec.
  split; [ exact Hspec | ].
  assert (Hin : forall x, In x m -> In x (elems (as_seq choices)))
    by (intros x Hx; rewrite Hspec in Hx; eapply matches_spec_incl; eassumption).
  clear Hspec. rewrite (arg_match_given _ _ _ Hc). simpl.
  destruct q as [k [| y ys]]; simpl in *.
  - inversion Hm; subst. split.
    + intros _ x Hx. discriminate Hx.
    + intros _ Hlen. simpl in Hlen. lia.
  - split.
    + intros Hside x ->.
      destruct multiple; simpl.
      * rewrite Hm. reflexivity.
      * destruct Hside as [Hside | Hside]; [ discriminate | ].
        destruct ys as [| y' ys']; simpl in Hside; [ | lia ].
        destruct (pyseq_eqb _ _) eqn:Heq; [ | rewrite Hm; reflexivity ].
        apply pyseq_eqb_eq in Heq.
        specialize (Hin x (or_introl eq_refl)).
        rewrite <- Heq in Hin. simpl in Hin. destruct Hin as [-> | []].
        reflexivity.
    + intros -> Hlen. simpl. rewrite Hm. simpl.
      destruct m as [| x [| x' m']]; simpl in Hlen; try lia.
      destruct (len_several x x' m') as [_ Hne]. rewrite Hne.
      now rewrite andb_false_r.
Qed.

(** C2, amended: with non-empty choices and a non-empty candidate, when no
    choice matches, and [multiple] is true or the candidate is a single
    element and differs from the choices, [arg_match] raises an
    [ArgMatchError] whose [n] is 0 and whose [args] are the choices; when
    the matches are several, [multiple] is false and the candidate is a
    single element, it raises an [ArgMatchError] whose [n] is the number of
    matches and whose [args] are the matches in order. *)
Theorem C2_match_errors
        (arg choices : value) (multiple : bool) (m : list string) :
  truthy_value choices = true ->
  truthy_value arg = true ->
  find_matches re_match (elems (as_seq arg)) (Some (as_seq choices)) = Return m ->
  (m = [] ->
   multiple = true
   \/ (length (elems (as_seq arg)) = 1%nat /\ as_seq arg <> as_seq choices) ->
   exists e,
     arg_match re_match caller (Some arg) (Some choices) multiple
     = Raise (ArgMatchErr e)
     /\ ArgMatchError_n e = 0%Z
     /\ ArgMatchError_args e = Some (elems (as_seq choices)))
  /\ ((1 < length m)%nat ->
      multiple = false ->
      length (elems (as_seq arg)) = 1%nat ->
      exists e,
        arg_match re_match caller (Some arg) (Some choices) multiple
        = Raise (ArgMatchErr e)
        /\ ArgMatchError_n e = len m
        /\ ArgMatchError_args e = Some m).
Proof.
  intros Hc Ha Hm. pose proof (find_matches_spec _ _ _ Hm) as Hspec.
  rewrite (arg_match_given _ _ _ Hc). simpl. rewrite Ha. simpl.
  destruct (truthy_first _ Hc) as (c & rest & Hfirst).
  split.
  - intros -> Hside.
    exists (MkArgMatchError 0 (Some (as_seq choices))).
    split; [ | split; [ reflexivity | ] ].
    + destruct Hside as [-> | [Hlen Hneq]]; simpl.
      * now rewrite Hm.
      * destruct (pyseq_eqb _ _) eqn:Heq;
          [ apply pyseq_eqb_eq in Heq; contradiction | ].
        unfold len. rewrite Hlen. simpl. now rewrite !andb_false_r, Hm.
    + unfold ArgMatchError_args. simpl. now rewrite Hfirst.
  - intros Hseveral -> Hlen.
    exists (MkArgMatchError (len m) (Some (tuple m))).
    destruct m as [| x [| x' m']]; simpl in Hseveral; try lia.
    split; [ | split; reflexivity ].
    simpl. destruct (pyseq_eqb _ _) eqn:Heq.
    + exfalso. apply pyseq_eqb_eq in Heq. rewrite <- Heq in Hspec.
      destruct (elems (as_seq arg)) as [| y [| y' ys]]; simpl in Hlen;
        try discriminate.
      unfold matches_spec in Hspec. simpl in Hspec.
      destruct (is_match (re_match y y)); discriminate.
    + unfold len at 1. rewrite Hlen. simpl. rewrite Hm. simpl.
      destruct (len_several x x' m') as [Hlt _]. now rewrite Hlt.
Qed.

(** C4, amended: with empty or absent choices [arg_match] raises
    [ValueError] when the code context of the caller cannot be determined.
    When the calling line is there and is found to hold a call whose first
    argument is a name, and this name is a parameter of the calling
    function whose default is a non-empty string or sequence of strings,
    [arg_match] goes on exactly as if this default had been passed as the
    choices. *)
Theorem C4_choices_from_caller
        (f : caller_frame) (arg choices : option value) (multiple : bool) :
  truthy choices = false ->
  (code_context f = None \/ code_context f = Some [] ->
   arg_match re_match (inspect_caller f) arg choices multiple
   = Raise (ValueError "Cannot determine code context"))
  /\ (forall line lines stmt stmts id args sig d,
        code_context f = Some (line :: lines) ->
        parsed f = Return (stmt :: stmts) ->
        find_call stmt = Return (Name id :: args) ->
        lookup (function f) (f_globals f) = Some (Return sig) ->
        lookup id sig = Some (Val d) ->
        truthy_value d = true ->
        arg_match re_match (inspect_caller f) arg choices multiple
        = arg_match re_match caller arg (Some d) multiple).
Proof.
  intros H. unfold arg_match. rewrite H. simpl. split.
  - unfold inspect_caller. intros [-> | ->]; reflexivity.
  - intros line lines stmt stmts id args sig d Hcc Hp Hcall Hfun Hpar Hd.
    unfold inspect_caller, default_of_caller, getitem.
    rewrite Hcc, Hp. simpl. rewrite Hcall. simpl. rewrite Hfun. simpl.
    rewrite Hpar. simpl. now rewrite Hd.
Qed.

Lemma prefix_empty (x : string) : prefix EmptyString x = true.
Proof. now destruct x. Qed.

Lemma filter_prefix_empty (xs : list string) :
  filter (prefix EmptyString) xs = xs.
Proof.
  induction xs as [| x xs IH]; simpl; [ reflexivity | ].
  now rewrite prefix_empty, IH.
Qed.

Lemma select_literal (y : string) (xs : list string) :
  Re.faithful re_match -> Re.literal y = true ->
  select re_match y xs = Return (filter (prefix y) xs).
Proof.
  intros Hf Hy. induction xs as [| x xs IH]; simpl; [ reflexivity | ].
  unfold matches. rewrite (ReFacts.faithful_literal _ _ x Hf Hy), IH.
  now destruct (prefix y x).
Qed.

(** C5, amended: with non-empty choices, a string without any special
    character of regular expressions that is the one and only element of
    the choices starting with it is returned by [arg_match] when given as
    the candidate with [multiple] false. *)
Theorem C5_literal_self_match (s : string) (choices : value) :
  Re.faithful re_match ->
  truthy_value choices = true ->
  Re.literal s = true ->
  filter (prefix s) (elems (as_seq choices)) = [s] ->
  arg_match re_match caller (Some (Str s)) (Some choices) false
  = Return (One s).
Proof.
  intros Hf Hc Hlit Hone. rewrite (arg_match_given _ _ _ Hc). simpl.
  destruct (String.eqb_spec s EmptyString) as [-> | Hne]; simpl.
  - rewrite filter_prefix_empty in Hone. unfold first; simpl. now rewrite Hone.
  - destruct (pyseq_eqb _ _); [ reflexivity | ].
    simpl. rewrite (select_literal s _ Hf Hlit), Hone. reflexivity.
Qed.

End MatcherFacts.

(** ** Properties of [ArgMatchError] *)

(** C8: the constructor raises [ValueError] when [n] is negative, raises
    [ValueError] when the items are non-empty, [n] is positive and the number
    of items is not [n], and succeeds in every other case. *)
Theorem C8_constructor_checks (n : Z) (args : option value) :
  ((n < 0)%Z ->
   ArgMatchError_init n args
   = Raise (ValueError "'n' must be a positive integer"))
  /\ (items_of args <> [] -> (0 < n)%Z -> len (items_of args) <> n ->
      ArgMatchError_init n args
      = Raise (ValueError "'args' must be of length 'n' when provided"))
  /\ (~ (n < 0)%Z ->
      ~ (items_of args <> [] /\ (0 < n)%Z /\ len (items_of args) <> n) ->
      ArgMatchError_init n args = Return (MkArgMatchError n (as_args args))).
Proof.
  unfold ArgMatchError_init, ArgMatchError_n, ArgMatchError_args, items_of.
  simpl. repeat split.
  - intros Hn. apply Z.ltb_lt in Hn. now rewrite Hn.
  - intros Hitems Hpos Hlen.
    destruct (Z.ltb_spec n 0) as [Hneg | _]; [ lia | ].
    destruct (as_args args) as [[k [| x xs]] |]; simpl in *;
      try contradiction.
    destruct (Z.eqb_spec n 0) as [H0 | _]; [ lia | ].
    destruct (Z.eqb_spec n (len (x :: xs))) as [He | _]; [ | reflexivity ].
    symmetry in He. contradiction.
  - intros Hn Hnot.
    destruct (Z.ltb_spec n 0) as [Hneg | _]; [ contradiction | ].
    destruct (as_args args) as [[k [| x xs]] |]; simpl in *;
      try reflexivity.
    destruct (Z.eqb_spec n 0) as [H0 | H0]; [ reflexivity | ].
    destruct (Z.eqb_spec n (len (x :: xs))) as [He | He]; [ reflexivity | ].
    exfalso. apply Hnot. repeat split; [ discriminate | lia | congruence ].
Qed.

(** What [__str__] returns, case by case. *)

Lemma str_too_many (n : Z) (q : option pyseq) :
  n <> 0%Z ->
  ArgMatchError_str (MkArgMatchError n q)
  = Return (match ArgMatchError_args (MkArgMatchError n q) with
            | Some xs => ("Too many matches (" ++ format_int n ++ ")")
                           ++ ", found '" ++ join_quoted xs ++ "'"
            | None => "Too many matches (" ++ format_int n ++ ")"
            end).
Proof.
  intros Hn. unfold ArgMatchError_str, ArgMatchError_n. simpl.
  destruct (Z.eqb_spec n 0) as [H0 | _]; [ contradiction | ]. simpl.
  now destruct (ArgMatchError_args _).
Qed.

Lemma str_no_match_one (k : seq_kind) (x : string) :
  ArgMatchError_str (MkArgMatchError 0 (Some (PySeq k [x])))
  = Return ("No argument match found" ++ ", should be '" ++ x ++ "'").
Proof. reflexivity. Qed.

Lemma str_no_match_several (k : seq_kind) (x y : string) (xs : list string) :
  ArgMatchError_str (MkArgMatchError 0 (Some (PySeq k (x :: y :: xs))))
  = Return ("No argument match found" ++ ", should be one of '"
              ++ join_quoted (x :: y :: xs) ++ "'").
Proof. reflexivity. Qed.

Example str_example_too_many :
  (e <- ArgMatchError_init 2 (Some (Seq (tuple ["aa"; "ab"]))) ;;
   ArgMatchError_str e)
  = Return "Too many matches (2), found 'aa', 'ab'".
Proof. reflexivity. Qed.

Example str_example_no_match :
  (e <- ArgMatchError_init 0 (Some (Seq (tuple ["x"]))) ;; ArgMatchError_str e)
  = Return "No argument match found, should be 'x'".
Proof. reflexivity. Qed.

(** C7: an [ArgMatchError] built with [n] equal to 0 and no items is validly
    constructed, and [__str__] on it does not return
    [No argument match found]: it takes the length of [None] and raises
    [TypeError].  The same happens with an empty sequence of items. *)
Theorem C7_str_without_items_raises :
  ArgMatchError_init 0 None = Return (MkArgMatchError 0 None)
  /\ ArgMatchError_str (MkArgMatchError 0 None) = Raise TypeError
  /\ (e <- ArgMatchError_init 0 (Some (Seq (tuple []))) ;; ArgMatchError_str e)
     = Raise TypeError.
Proof. repeat split. Qed.

(** ** The properties on concrete calls *)

Lemma C6_witness :
  arg_match Re.reference NoCodeContext None (Some aa_ab) true
  = Return (One "aa").
Proof.
  apply (C6_default_is_first_choice
           Re.reference NoCodeContext None aa_ab true "aa" ["ab"]);
    reflexivity.
Defined.

Lemma C3_witness :
  arg_match Re.reference NoCodeContext (Some aa_ab) (Some aa_ab) false
  = Return (One "aa")
  /\ arg_match Re.reference NoCodeContext
               (Some (Seq (tuple ["x"; "y"]))) (Some aa_ab) false
     = Raise (ValueError "'arg' must be of length 1").
Proof.
  split.
  - apply (proj1 (C3_equality_before_length
                    Re.reference NoCodeContext aa_ab aa_ab "aa" ["ab"]
                    eq_refl eq_refl)).
    reflexivity.
  - apply (proj2 (C3_equality_before_length
                    Re.reference NoCodeContext (Seq (tuple ["x"; "y"])) aa_ab
                    "aa" ["ab"] eq_refl eq_refl)).
    + discriminate.
    + simpl. lia.
Defined.


Lemma C10_witness :
  true = true /\ (1 < length ["aa"; "ab"])%nat
  /\ Forall (fun x => In x (elems (as_seq aa_ab))) ["aa"; "ab"].
Proof.
  apply (C10_result_among_choices
           Re.reference NoCodeContext (Some (Str "a")) aa_ab true
           (Many ["aa"; "ab"]));
    reflexivity.
Defined.

Lemma C9_witness :
  (exists r, arg_match Re.reference NoCodeContext (Some (Str "z")) (Some aa_ab)
                       false = Return r)
  \/ (exists e, arg_match Re.reference NoCodeContext (Some (Str "z"))
                          (Some aa_ab) false = Raise (ArgMatchErr e))
  \/ (arg_match Re.reference NoCodeContext (Some (Str "z")) (Some aa_ab) false
      = Raise (ValueError "'arg' must be of length 1"))
  \/ (exists e a,
         Some (Str "z") = Some a
         /\ arg_match Re.reference NoCodeContext (Some (Str "z")) (Some aa_ab)
                      false = Raise e
         /\ raised_by_engine Re.reference e (elems (as_seq a))
                             (elems (as_seq aa_ab))
         /\ (e = PatternError \/ exists f, e = exn_of_fault f)).
Proof.
  apply (C9_returns_or_documented_failure
           Re.reference NoCodeContext (Some (Str "z")) aa_ab false).
  reflexivity.
Defined.

Lemma C1_witness :
  ["aa"; "ab"] = matches_spec Re.reference ["a"] ["aa"; "ab"]
  /\ arg_match Re.reference NoCodeContext (Some (Seq (tuple ["a"])))
               (Some aa_ab) true
     = Return (Many ["aa"; "ab"])
  /\ arg_match Re.reference NoCodeContext (Some (Seq (tuple ["ab"])))
               (Some aa_ab) false
     = Return (One "ab").
Proof.
  split; [ | split ].
  - apply (proj1 (C1_matches_and_result
                    Re.reference NoCodeContext (tuple ["a"]) aa_ab true
                    ["aa"; "ab"] eq_refl eq_refl)).
  - apply (proj2 (proj2 (C1_matches_and_result
                           Re.reference NoCodeContext (tuple ["a"]) aa_ab true
                           ["aa"; "ab"] eq_refl eq_refl))).
    + reflexivity.
    + simpl. lia.
  - apply (proj1 (proj2 (C1_matches_and_result
                           Re.reference NoCodeContext (tuple ["ab"]) aa_ab false
                           ["ab"] eq_refl eq_refl))).
    + right. reflexivity.
    + reflexivity.
Defined.

Lemma C2_witness :
  (exists e,
      arg_match Re.reference NoCodeContext (Some (Str "z")) (Some aa_ab) false
      = Raise (ArgMatchErr e)
      /\ ArgMatchError_n e = 0%Z
      /\ ArgMatchError_args e = Some ["aa"; "ab"])
  /\ (exists e,
         arg_match Re.reference NoCodeContext (Some (Str "a")) (Some aa_ab) false
         = Raise (ArgMatchErr e)
         /\ ArgMatchError_n e = 2%Z
         /\ ArgMatchError_args e = Some ["aa"; "ab"]).
Proof.
  split.
  - apply (proj1 (C2_match_errors
                    Re.reference NoCodeContext (Str "z") aa_ab false []
                    eq_refl eq_refl eq_refl)).
    + reflexivity.
    + right. split; [ reflexivity | discriminate ].
  - apply (proj2 (C2_match_errors
                    Re.reference NoCodeContext (Str "a") aa_ab false
                    ["aa"; "ab"] eq_refl eq_refl eq_refl)).
    + simpl. lia.
    + reflexivity.
    + reflexivity.
Defined.

Lemma C4_witness :
  arg_match Re.reference (inspect_caller _f_frame_without_source)
            (Some (Str "a")) None false
  = Raise (ValueError "Cannot determine code context")
  /\ arg_match Re.reference (inspect_caller _f_frame) (Some (Str "a")) None
               false
     = arg_match Re.reference NoCodeContext (Some (Str "a"))
                 (Some _f_default) false.
Proof.
  split.
  - apply (proj1 (C4_choices_from_caller
                    Re.reference NoCodeContext _f_frame_without_source
                    (Some (Str "a")) None false eq_refl)).
    left. reflexivity.
  - apply (proj2 (C4_choices_from_caller
                    Re.reference NoCodeContext _f_frame
                    (Some (Str "a")) None false eq_refl)
                 "def _f(x=('aa', 'ab'), y=None):" ["    x = arg_match(x)"]
                 (WithValue (Some (Call [Name "x"]))) [] "x" []
                 [("x", Val _f_default); ("y", NoneDefault)] _f_default);
      reflexivity.
Defined.

Lemma C5_witness :
  arg_match Re.reference NoCodeContext (Some (Str "ab")) (Some aa_ab) false
  = Return (One "ab").
Proof.
  apply (C5_literal_self_match Re.reference NoCodeContext "ab" aa_ab).
  - exact ReFacts.reference_faithful.
  - reflexivity.
  - reflexivity.
  - reflexivity.
Defined.

Lemma C8_witness :
  ArgMatchError_init (-1) None
  = Raise (ValueError "'n' must be a positive integer")
  /\ ArgMatchError_init 1 (Some aa_ab)
     = Raise (ValueError "'args' must be of length 'n' when provided")
  /\ ArgMatchError_init 2 (Some aa_ab)
     = Return (MkArgMatchError 2 (Some (tuple ["aa"; "ab"]))).
Proof.
  split; [ | split ].
  - apply (proj1 (C8_constructor_checks (-1) None)). lia.
  - apply (proj1 (proj2 (C8_constructor_checks 1 (Some aa_ab)))).
    + discriminate.
    + lia.
    + discriminate.
  - apply (proj2 (proj2 (C8_constructor_checks 2 (Some aa_ab)))).
    + lia.
    + intros (_ & _ & H). apply H. reflexivity.
Defined.

(** ** Where the specification and the code part *)

(** C1: with [multiple] false a candidate of two elements has one match,
    and [arg_match] does not return it. *)
Lemma C1_counterexample :
  find_matches Re.reference ["a"; "z"] (Some (tuple ["a"; "b"])) = Return ["a"]
  /\ arg_match Re.reference NoCodeContext (Some (Seq (tuple ["a"; "z"])))
               (Some (Seq (tuple ["a"; "b"]))) false
     = Raise (ValueError "'arg' must be of length 1").
Proof. split; reflexivity. Qed.

(** C2: the candidate equal to the choices has two matches, [multiple] is
    false, and [arg_match] returns the first choice. *)
Lemma C2_counterexample :
  find_matches Re.reference ["aa"; "ab"] (Some (tuple ["aa"; "ab"]))
  = Return ["aa"; "ab"]
  /\ arg_match Re.reference NoCodeContext (Some aa_ab) (Some aa_ab) false
     = Return (One "aa").
Proof. split; reflexivity. Qed.

(** C4: the call [_f()] of the module passes no choices to [arg_match],
    which finds them in the signature of [_f] and returns. *)
Lemma C4_counterexample :
  truthy None = false
  /\ _f Re.reference (Some _f_default) = Return (One "aa")
  /\ arg_match Re.reference (inspect_caller _f_frame) (Some (Str "ab")) None
               false
     = Return (One "ab").
Proof. repeat split. Qed.

(** C5: a choice that another choice starts with does not match itself
    alone. *)
Lemma C5_counterexample :
  In "a" ["a"; "ab"]
  /\ arg_match Re.reference NoCodeContext (Some (Str "a"))
               (Some (Seq (tuple ["a"; "ab"]))) false
     = Raise (ArgMatchErr (MkArgMatchError 2 (Some (tuple ["a"; "ab"])))).
Proof. split; [ now left | reflexivity ]. Qed.

(** C9: a candidate that is not a well-formed pattern makes [arg_match]
    fail with [re.error], which is neither of the two documented errors. *)
Lemma C9_counterexample :
  Re.fragment "(" "a" = Some Re.ReError
  /\ arg_match Re.reference NoCodeContext (Some (Str "("))
               (Some (Seq (tuple ["a"; "b"]))) false
     = Raise PatternError.
Proof. split; reflexivity. Qed.


(** ** The same calls with any faithful engine

    The calls above are run with [Re.reference]; their outcome is that of
    every engine that agrees with Python on the patterns involved. *)

Section FaithfulEngine.

Variable re_match : Re.engine.
Variable caller : caller_context.
Hypothesis re_faithful : Re.faithful re_match.

Ltac answer p s := rewrite (re_faithful p s _ eq_refl).

Ltac run := unfold arg_match, _f; simpl; unfold matches.

(** [arg_match("a", choices=("aa", "ab"))] *)
Lemma abbreviation_of_two_choices :
  arg_match re_match caller (Some (Str "a")) (Some aa_ab) false
  = Raise (ArgMatchErr (MkArgMatchError 2 (Some (tuple ["aa"; "ab"]))))
  /\ arg_match re_match caller (Some (Str "a")) (Some aa_ab) true
     = Return (Many ["aa"; "ab"]).
Proof. split; run; answer "a" "aa"; answer "a" "ab"; reflexivity. Qed.

(** [arg_match("z", choices=("aa", "ab"))] *)
Lemma no_choice_matches :
  arg_match re_match caller (Some (Str "z")) (Some aa_ab) false
  = Raise (ArgMatchErr (MkArgMatchError 0 (Some (tuple ["aa"; "ab"])))).
Proof. run. answer "z" "aa". answer "z" "ab". reflexivity. Qed.

(** A choice that starts another choice cannot be selected. *)
Lemma shadowed_choice_is_ambiguous :
  arg_match re_match caller (Some (Str "a")) (Some (Seq (tuple ["a"; "ab"])))
            false
  = Raise (ArgMatchErr (MkArgMatchError 2 (Some (tuple ["a"; "ab"])))).
Proof. run. answer "a" "a". answer "a" "ab". reflexivity. Qed.

(** A choice with a special character need not match itself. *)
Lemma special_choice_misses_itself :
  arg_match re_match caller (Some (Str "a+b"))
            (Some (Seq (tuple ["a+b"; "c"]))) false
  = Raise (ArgMatchErr (MkArgMatchError 0 (Some (tuple ["a+b"; "c"])))).
Proof. run. answer "a+b" "a+b". answer "a+b" "c". reflexivity. Qed.

(** A candidate is a pattern: [.*] selects every choice. *)
Lemma candidate_is_a_pattern :
  arg_match re_match caller (Some (Str ".*")) (Some aa_ab) true
  = Return (Many ["aa"; "ab"]).
Proof. run. answer ".*" "aa". answer ".*" "ab". reflexivity. Qed.

(** An unbalanced parenthesis is an error of the engine. *)
Lemma malformed_candidate_raises :
  arg_match re_match caller (Some (Str "(")) (Some (Seq (tuple ["a"; "b"])))
            false
  = Raise PatternError.
Proof. run. answer "(" "a". reflexivity. Qed.

(** With more than one candidate element and [multiple] false, the matches
    are not looked at. *)
Lemma single_match_of_two_elements_is_not_returned :
  find_matches re_match ["a"; "z"] (Some (tuple ["a"; "b"])) = Return ["a"]
  /\ arg_match re_match caller (Some (Seq (tuple ["a"; "z"])))
               (Some (Seq (tuple ["a"; "b"]))) false
     = Raise (ValueError "'arg' must be of length 1").
Proof.
  split; [ | reflexivity ]. simpl. unfold matches.
  answer "a" "a". answer "a" "b". answer "z" "a". answer "z" "b". reflexivity.
Qed.

End FaithfulEngine.


(** ** Every outcome of [arg_match] when [choices] is given *)

Section Outcomes.

Variable re_match : Re.engine.
Variable caller : caller_context.

Lemma len_one (xs : list string) (y : string) :
  xs = [y] -> (1 <? len xs)%Z = false.
Proof. intros ->. reflexivity. Qed.

Lemma len_two_or_more (x y : string) (m : list string) :
  (2 <= len (x :: y :: m))%Z.
Proof. unfold len. simpl length. lia. Qed.

(** A handler [except ValueError] catches an [ArgMatchError] too. *)
Lemma match_error_is_a_value_error (err : ArgMatchError) (msg : string) :
  is_ValueError (ArgMatchErr err) = true /\ is_ValueError (ValueError msg) = true
  /\ is_ValueError PatternError = false.
Proof. repeat split. Qed.

(** What the engine raises is [re.error] or one of its faults. *)
Lemma engine_exception (arg : list string) (c : pyseq) (e : exn) :
  find_matches re_match arg (Some c) = Raise e ->
  e = PatternError \/ exists f, e = exn_of_fault f.
Proof.
  intros H. apply find_matches_raises in H.
  destruct H as (y & x & _ & _ & Hyx). unfold matches in Hyx.
  destruct (re_match y x); inversion Hyx; subst; eauto.
Qed.

Lemma engine_exception_is_no_match_error (e : exn) (err : ArgMatchError) :
  e = PatternError \/ (exists f, e = exn_of_fault f) -> e <> ArgMatchErr err.
Proof. intros [-> | [[] ->]]; discriminate. Qed.

(** Once the candidate has passed the checks, the matches decide. *)
Lemma matching_phase (a choices : value) (multiple : bool) :
  truthy_value choices = true ->
  truthy_value a = true ->
  negb multiple && pyseq_eqb (as_seq a) (as_seq choices) = false ->
  negb multiple && (1 <? len (elems (as_seq a)))%Z = false ->
  (exists e,
      find_matches re_match (elems (as_seq a)) (Some (as_seq choices))
      = Raise e
      /\ arg_match re_match caller (Some a) (Some choices) multiple = Raise e
      /\ (e = PatternError \/ exists f, e = exn_of_fault f))
  \/ (find_matches re_match (elems (as_seq a)) (Some (as_seq choices))
      = Return []
      /\ arg_match re_match caller (Some a) (Some choices) multiple
         = Raise (ArgMatchErr (MkArgMatchError 0 (Some (as_seq choices)))))
  \/ (exists x,
         find_matches re_match (elems (as_seq a)) (Some (as_seq choices))
         = Return [x]
         /\ arg_match re_match caller (Some a) (Some choices) multiple
            = Return (One x))
  \/ (exists m,
         find_matches re_match (elems (as_seq a)) (Some (as_seq choices))
         = Return m
         /\ (2 <= len m)%Z
         /\ arg_match re_match caller (Some a) (Some choices) multiple
            = if multiple then Return (Many m)
              else Raise (ArgMatchErr (MkArgMatchError (len m) (Some (tuple m))))).
Proof.
  intros Hc Ha E1 E2. rewrite (arg_match_given re_match caller _ _ _ Hc).
  simpl. rewrite Ha. simpl in *. rewrite E1, E2.
  destruct (find_matches _ _ _) as [m | e] eqn:Hm; simpl.
  - destruct m as [| x [| x' m']].
    + right; left. now split.
    + right; right; left. exists x. split; [ reflexivity | ].
      now destruct multiple.
    + right; right; right. exists (x :: x' :: m').
      split; [ reflexivity | ]. split; [ apply len_two_or_more | ].
      destruct (len_several x x' m') as [Hlt Hne]. rewrite Hlt, Hne.
      now destruct multiple.
  - left. exists e. split; [ reflexivity | ]. split; [ reflexivity | ].
    now apply engine_exception in Hm.
Qed.

(** The seven ways out of [arg_match]: the default, the pass-through of the
    choices, the refusal of a long candidate, and, once the matches are
    looked for, an error of the engine, no match, one match, several. *)
Lemma arg_match_outcomes
      (arg : option value) (choices : value) (multiple : bool)
      (c0 : string) (rest : list string) :
  truthy_value choices = true ->
  elems (as_seq choices) = c0 :: rest ->
  (truthy arg = false
   /\ arg_match re_match caller arg (Some choices) multiple = Return (One c0))
  \/ (exists a, arg = Some a /\ truthy_value a = true /\ multiple = false
                /\ as_seq a = as_seq choices
                /\ arg_match re_match caller arg (Some choices) multiple
                   = Return (One c0))
  \/ (exists a, arg = Some a /\ multiple = false
                /\ as_seq a <> as_seq choices
                /\ (1 < length (elems (as_seq a)))%nat
                /\ arg_match re_match caller arg (Some choices) multiple
                   = Raise (ValueError "'arg' must be of length 1"))
  \/ (exists a, arg = Some a /\ truthy_value a = true
                /\ (multiple = true
                    \/ (as_seq a <> as_seq choices
                        /\ exists y, elems (as_seq a) = [y]))
                /\ negb multiple && pyseq_eqb (as_seq a) (as_seq choices) = false
                /\ negb multiple && (1 <? len (elems (as_seq a)))%Z = false).
Proof.
  intros Hc Hfirst.
  assert (Hgiven := arg_match_given re_match caller arg choices multiple Hc).
  simpl in Hgiven.
  assert (Hdefault : (x <- first (Some (as_seq choices)) ;; Return (One x))
                     = Return (One c0))
    by (unfold first; simpl; now rewrite Hfirst).
  destruct arg as [a |];
    [ | left; split; [ reflexivity | rewrite Hgiven; exact Hdefault ] ].
  destruct (truthy_value a) eqn:Ha; simpl in Hgiven;
    [ | left; split; [ exact Ha | rewrite Hgiven; exact Hdefault ] ].
  right. destruct multiple; simpl in *.
  - right; right. exists a. repeat split; auto.
  - destruct (pyseq_eqb (as_seq a) (as_seq choices)) eqn:Heq.
    + apply pyseq_eqb_eq in Heq. left. exists a. repeat split; auto.
      rewrite Hgiven, Heq. exact Hdefault.
    + assert (Hneq : as_seq a <> as_seq choices).
      { intros E. rewrite E, pyseq_eqb_refl in Heq. discriminate. }
      destruct (elems (as_seq a)) as [| y [| y' ys]] eqn:Hel.
      * exfalso. destruct a as [s | [k xs]]; simpl in Hel, Ha;
          [ discriminate Hel | ].
        rewrite Hel in Ha. discriminate Ha.
      * right; right. exists a.
        split; [ reflexivity | ]. split; [ exact Ha | ].
        split; [ right; split; [ exact Hneq | now exists y ] | ].
        split; [ exact Heq | now rewrite Hel ].
      * right; left. exists a.
        destruct (len_several y y' ys) as [Hlt _]. rewrite Hlt in Hgiven.
        split; [ reflexivity | ]. split; [ reflexivity | ].
        split; [ exact Hneq | ]. split; [ rewrite Hel; simpl; lia | ].
        exact Hgiven.
Qed.

(** ** What [arg_match] raises, and when *)

(** X1: with non-empty choices, a [ValueError] that is not an
    [ArgMatchError] comes out of [arg_match] in two ways and no other: it is
    the one of line 137, exactly when [multiple] is false and the candidate
    has more than one element and is not equal to the choices; or the
    candidate passed these checks and the engine raised it while the matches
    were collected.  So the checks of the constructor of [ArgMatchError]
    never fire inside [arg_match]. *)
Theorem value_error_sources
        (arg : option value) (choices : value) (multiple : bool) (msg : string) :
  truthy_value choices = true ->
  arg_match re_match caller arg (Some choices) multiple = Raise (ValueError msg)
  <-> (msg = "'arg' must be of length 1" /\ multiple = false
       /\ exists a, arg = Some a /\ as_seq a <> as_seq choices
                    /\ (1 < length (elems (as_seq a)))%nat)
      \/ (exists a,
             arg = Some a /\ truthy_value a = true
             /\ (multiple = true
                 \/ (as_seq a <> as_seq choices
                     /\ exists y, elems (as_seq a) = [y]))
             /\ find_matches re_match (elems (as_seq a)) (Some (as_seq choices))
                = Raise (ValueError msg)).
Proof.
  intros Hc. destruct (truthy_first _ Hc) as (c0 & rest & Hfirst).
  destruct (arg_match_outcomes arg choices multiple c0 rest Hc Hfirst)
    as [[Hn Hr] | [(a & -> & Ha & Hm & Heq & Hr)
                  | [(a & -> & Hm & Hneq & Hlen & Hr)
                    | (a & -> & Ha & Hside & E1 & E2)]]].
  - rewrite Hr. split; [ discriminate | ].
    intros [(_ & _ & a & -> & _ & Hlen) | (a & -> & Ha & _)]; exfalso.
    + destruct a as [s | [k [| y ys]]]; simpl in *; try discriminate; lia.
    + simpl in Hn. congruence.
  - rewrite Hr. split; [ discriminate | ].
    intros [(_ & _ & a' & Ea & Hneq & _) | (a' & Ea & _ & Hside & _)];
      inversion Ea; subst a'; [ contradiction | ].
    destruct Hside as [Ht | (Hneq & _)]; [ congruence | contradiction ].
  - rewrite Hr. split.
    + intros E. inversion E; subst. left. split; [ reflexivity | ].
      split; [ reflexivity | ]. now exists a.
    + intros [(-> & _) | (a' & Ea & _ & Hside & _)]; [ reflexivity | ].
      exfalso. inversion Ea; subst a'.
      destruct Hside as [Ht | (_ & y & Hy)]; [ congruence | ].
      rewrite Hy in Hlen. simpl in Hlen. lia.
  - split.
    + intros E.
      destruct (matching_phase a choices multiple Hc Ha E1 E2)
        as [(e0 & Hf & Hr & _) | [[Hf Hr] | [(x & Hf & Hr) | (m & Hf & _ & Hr)]]];
        rewrite Hr in E.
      * inversion E; subst e0. right. exists a.
        split; [ reflexivity | ]. split; [ exact Ha | ].
        split; [ exact Hside | exact Hf ].
      * discriminate E.
      * discriminate E.
      * destruct multiple; discriminate E.
    + intros [(_ & Hm & a' & Ea & Hneq & Hlen) | (a' & Ea & _ & _ & Hfm)];
        inversion Ea; subst a'.
      * exfalso. destruct Hside as [Ht | (_ & y & Hy)]; [ congruence | ].
        rewrite Hy in Hlen. simpl in Hlen. lia.
      * destruct (matching_phase a choices multiple Hc Ha E1 E2)
          as [(e0 & Hf & Hr & _) | [[Hf Hr] | [(x & Hf & Hr) | (m & Hf & _ & Hr)]]];
          rewrite Hf in Hfm; try discriminate Hfm.
        inversion Hfm; subst e0. exact Hr.
Qed.

(** X2: with non-empty choices, an [ArgMatchError] raised by [arg_match]
    either has [n] equal to 0 and the choices as items, or is raised with
    [multiple] false for a candidate of one element, and then carries the
    choices this element matches, in the order of the choices, their number
    being [n], which is at least 2.  So [n] is never 1. *)
Theorem match_error_shape
        (arg : option value) (choices : value) (multiple : bool)
        (e : ArgMatchError) :
  truthy_value choices = true ->
  arg_match re_match caller arg (Some choices) multiple = Raise (ArgMatchErr e) ->
  (ArgMatchError_n e = 0%Z
   /\ ArgMatchError_args e = Some (elems (as_seq choices)))
  \/ (exists a y,
         arg = Some a /\ elems (as_seq a) = [y] /\ multiple = false
         /\ ArgMatchError_args e
            = Some (filter (fun x => is_match (re_match y x))
                           (elems (as_seq choices)))
         /\ ArgMatchError_n e
            = len (filter (fun x => is_match (re_match y x))
                          (elems (as_seq choices)))
         /\ (2 <= ArgMatchError_n e)%Z).
Proof.
  intros Hc. destruct (truthy_first _ Hc) as (c0 & rest & Hfirst).
  destruct (arg_match_outcomes arg choices multiple c0 rest Hc Hfirst)
    as [[Hn Hr] | [(a & -> & Ha & Hm & Heq & Hr)
                  | [(a & -> & Hm & Hneq & Hlen & Hr)
                    | (a & -> & Ha & Hside & E1 & E2)]]];
    try (rewrite Hr; discriminate).
  destruct (matching_phase a choices multiple Hc Ha E1 E2)
    as [(e0 & _ & Hr & Ho) | [[_ Hr] | [(x & _ & Hr) | (m & Hfm & Hlen & Hr)]]];
    rewrite Hr; try discriminate.
  - intros E. inversion E; subst e0. exfalso.
    exact (engine_exception_is_no_match_error _ _ Ho eq_refl).
  - intros E. inversion E; subst. left. split; [ reflexivity | ].
    unfold ArgMatchError_args. simpl. now rewrite Hfirst.
  - destruct multiple; [ discriminate | ].
    intros E. inversion E; subst. right.
    destruct Hside as [Ht | (_ & y & Hy)]; [ discriminate | ].
    rewrite Hy in Hfm. apply find_matches_spec in Hfm.
    unfold matches_spec in Hfm. simpl in Hfm. rewrite app_nil_r in Hfm.
    exists a, y. split; [ reflexivity | ]. split; [ exact Hy | ].
    split; [ reflexivity | ].
    unfold ArgMatchError_n, ArgMatchError_args. simpl. rewrite <- Hfm.
    destruct m as [| x m']; [ unfold len in Hlen; simpl in Hlen; lia | ].
    repeat split. exact Hlen.
Qed.

(** X3: with non-empty choices, every [ArgMatchError] that [arg_match]
    raises has a message: [__str__] returns on it, with the list of the
    choices after [should be] when nothing matched and the list of the
    matches after [found] otherwise. *)
Theorem raised_error_has_a_message
        (arg : option value) (choices : value) (multiple : bool)
        (e : ArgMatchError) :
  truthy_value choices = true ->
  arg_match re_match caller arg (Some choices) multiple = Raise (ArgMatchErr e) ->
  (ArgMatchError_n e = 0%Z
   /\ ArgMatchError_str e
      = Return ("No argument match found"
                  ++ match elems (as_seq choices) with
                     | [c] => ", should be '" ++ c ++ "'"
                     | cs => ", should be one of '" ++ join_quoted cs ++ "'"
                     end))
  \/ (exists m,
         ArgMatchError_args e = Some m
         /\ ArgMatchError_str e
            = Return (("Too many matches (" ++ format_int (len m) ++ ")")
                        ++ ", found '" ++ join_quoted m ++ "'")).
Proof.
  intros Hc. destruct (truthy_first _ Hc) as (c0 & rest & Hfirst).
  destruct (arg_match_outcomes arg choices multiple c0 rest Hc Hfirst)
    as [[Hn Hr] | [(a & -> & Ha & Hm & Heq & Hr)
                  | [(a & -> & Hm & Hneq & Hlen & Hr)
                    | (a & -> & Ha & Hside & E1 & E2)]]];
    try (rewrite Hr; discriminate).
  destruct (matching_phase a choices multiple Hc Ha E1 E2)
    as [(e0 & _ & Hr & Ho) | [[_ Hr] | [(x & _ & Hr) | (m & Hfm & Hlen & Hr)]]];
    rewrite Hr; try discriminate.
  - intros E. inversion E; subst e0. exfalso.
    exact (engine_exception_is_no_match_error _ _ Ho eq_refl).
  - intros E. inversion E; subst. left. split; [ reflexivity | ].
    destruct (as_seq choices) as [k cs]. simpl in Hfirst. subst cs.
    destruct rest as [| c1 rest'].
    + apply str_no_match_one.
    + apply str_no_match_several.
  - destruct multiple; [ discriminate | ].
    intros E. inversion E; subst. right. exists m.
    destruct m as [| x m']; [ unfold len in Hlen; simpl in Hlen; lia | ].
    split; [ reflexivity | ].
    rewrite str_too_many; [ reflexivity | ].
    unfold len. simpl length. lia.
Qed.

(** X4: for a candidate of one element that is not the choices themselves,
    [multiple] changes one thing only: where the call with [multiple] false
    raises an [ArgMatchError] for several matches, the call with [multiple]
    true returns these matches; everywhere else both calls end alike. *)
Theorem multiple_only_lifts_ambiguity (a choices : value) (y : string) :
  truthy_value choices = true ->
  elems (as_seq a) = [y] ->
  as_seq a <> as_seq choices ->
  arg_match re_match caller (Some a) (Some choices) false
  = arg_match re_match caller (Some a) (Some choices) true
  \/ (exists m,
         (2 <= len m)%Z
         /\ arg_match re_match caller (Some a) (Some choices) false
            = Raise (ArgMatchErr (MkArgMatchError (len m) (Some (tuple m))))
         /\ arg_match re_match caller (Some a) (Some choices) true
            = Return (Many m)).
Proof.
  intros Hc Hy Hneq.
  destruct (truthy_value a) eqn:Ha.
  - assert (Heq : pyseq_eqb (as_seq a) (as_seq choices) = false).
    { destruct (pyseq_eqb _ _) eqn:E; [ | reflexivity ].
      apply pyseq_eqb_eq in E. contradiction. }
    assert (E1 : negb false && pyseq_eqb (as_seq a) (as_seq choices) = false)
      by exact Heq.
    assert (E2 : negb false && (1 <? len (elems (as_seq a)))%Z = false)
      by (simpl; now rewrite Hy).
    destruct (matching_phase a choices false Hc Ha E1 E2)
      as [(e0 & Hf & Hr & _) | [[Hf Hr] | [(x & Hf & Hr) | (m & Hf & Hlen & Hr)]]];
      destruct (matching_phase a choices true Hc Ha eq_refl eq_refl)
        as [(e1 & Hf' & Hr' & _) | [[Hf' Hr'] | [(x' & Hf' & Hr') | (m' & Hf' & Hlen' & Hr')]]];
      rewrite Hf in Hf'; inversion Hf'; subst;
      try (left; now rewrite Hr, Hr');
      try (unfold len in *; simpl in *; lia).
    right. exists m'. now repeat split.
  - left. rewrite !(arg_match_given re_match caller _ _ _ Hc). simpl.
    now rewrite Ha.
Qed.

(** X5: when [multiple] is false, the choices passed through with the other
    kind of sequence (a list for a tuple or a tuple for a list) are not
    recognised as the choices: with more than one element [arg_match] raises
    [ValueError], where the same elements in the same kind of sequence give
    the first choice. *)
Theorem pass_through_needs_same_kind
        (k1 k2 : seq_kind) (x y : string) (rest : list string) :
  arg_match re_match caller (Some (Seq (PySeq k1 (x :: y :: rest))))
            (Some (Seq (PySeq k2 (x :: y :: rest)))) false
  = if seq_kind_eqb k1 k2 then Return (One x)
    else Raise (ValueError "'arg' must be of length 1").
Proof.
  rewrite (arg_match_given re_match caller _ (Seq (PySeq k2 (x :: y :: rest)))
                           _ eq_refl).
  simpl. unfold pyseq_eqb. simpl.
  assert (Hl : list_eqb (x :: y :: rest) (x :: y :: rest) = true)
    by now apply list_eqb_eq.
  simpl in Hl. rewrite Hl.
  destruct (len_several x y rest) as [Hlt _]. rewrite Hlt.
  now destruct (seq_kind_eqb k1 k2).
Qed.

(** X6: a non-empty bare string, as the candidate or as the choices, is the
    tuple that holds it and nothing else. *)
Theorem bare_string_is_one_tuple
        (s : string) (arg choices : option value) (multiple : bool) :
  s <> EmptyString ->
  arg_match re_match caller (Some (Str s)) choices multiple
  = arg_match re_match caller (Some (Seq (tuple [s]))) choices multiple
  /\ arg_match re_match caller arg (Some (Str s)) multiple
     = arg_match re_match caller arg (Some (Seq (tuple [s]))) multiple.
Proof.
  intros Hs. apply String.eqb_neq in Hs.
  unfold arg_match. simpl. rewrite Hs. simpl. split; reflexivity.
Qed.

(** X7: the matches of a candidate made of two parts are the matches of
    the first part followed by those of the second, and the first part that
    fails decides the error. *)
Theorem find_matches_app (xs ys : list string) (choices : option pyseq) :
  find_matches re_match (xs ++ ys) choices
  = (m1 <- find_matches re_match xs choices ;;
     m2 <- find_matches re_match ys choices ;;
     Return (m1 ++ m2)%list).
Proof.
  induction xs as [| x xs IH]; simpl.
  - now destruct (find_matches re_match ys choices).
  - destruct (iterate choices) as [cs |]; simpl; [ | reflexivity ].
    destruct (select re_match x cs) as [here |]; simpl; [ | reflexivity ].
    rewrite IH.
    destruct (find_matches re_match xs choices) as [m1 |]; simpl;
      [ | reflexivity ].
    destruct (find_matches re_match ys choices) as [m2 |]; simpl;
      [ | reflexivity ].
    now rewrite List.app_assoc.
Qed.

(** X8: [_f] returns nothing but ['aa'] or ['ab'], whatever it is given. *)
Theorem f_returns_a_declared_choice (x : option value) (r : result) :
  _f re_match x = Return r -> r = One "aa" \/ r = One "ab".
Proof.
  unfold _f. change (inspect_caller _f_frame) with (Default (Some _f_default)).
  assert (Hd : arg_match re_match (Default (Some _f_default)) x None false
               = arg_match re_match caller x (Some _f_default) false)
    by reflexivity.
  rewrite Hd. clear Hd.
  destruct (arg_match_outcomes x _f_default false "aa" ["ab"] eq_refl eq_refl)
    as [[Hn Hr] | [(a & -> & Ha & Hm & Heq & Hr)
                  | [(a & -> & Hm & Hneq & Hlen & Hr)
                    | (a & -> & Ha & Hside & E1 & E2)]]];
    try (rewrite Hr; intros E; inversion E; now left).
  destruct (matching_phase a _f_default false eq_refl Ha E1 E2)
    as [(e0 & _ & Hr & _) | [[_ Hr] | [(y & Hf & Hr) | (m & _ & _ & Hr)]]];
    rewrite Hr; try discriminate.
  intros E. inversion E; subst.
  apply find_matches_spec in Hf.
  assert (Hin : In y (elems (as_seq _f_default))).
  { eapply matches_spec_incl. rewrite <- Hf. now left. }
  simpl in Hin. destruct Hin as [<- | [<- | []]]; [ now left | now right ].
Qed.


(** ** Candidates without special characters *)

(** X9: with an engine that agrees with Python, a candidate of one element
    without special characters selects the choices that start with it: none
    is an [ArgMatchError] with [n] equal to 0, one is returned, and several
    are returned together when [multiple] is true and are an [ArgMatchError]
    otherwise. *)
Theorem literal_candidate_selects_by_prefix
        (a choices : value) (s : string) (multiple : bool) :
  Re.faithful re_match ->
  truthy_value choices = true ->
  truthy_value a = true ->
  elems (as_seq a) = [s] ->
  Re.literal s = true ->
  arg_match re_match caller (Some a) (Some choices) multiple
  = match filter (prefix s) (elems (as_seq choices)) with
    | [] => Raise (ArgMatchErr (MkArgMatchError 0 (Some (as_seq choices))))
    | [x] => Return (One x)
    | m => if multiple then Return (Many m)
           else Raise (ArgMatchErr (MkArgMatchError (len m) (Some (tuple m))))
    end.
Proof.
  intros Hf Hc Ha Hs Hlit.
  assert (Hfm : find_matches re_match (elems (as_seq a)) (Some (as_seq choices))
                = Return (filter (prefix s) (elems (as_seq choices)))).
  { rewrite Hs. simpl. rewrite (select_literal re_match s _ Hf Hlit). simpl.
    now rewrite app_nil_r. }
  destruct (truthy_first _ Hc) as (c0 & rest & Hfirst).
  destruct (arg_match_outcomes (Some a) choices multiple c0 rest Hc Hfirst)
    as [[Hn Hr] | [(a' & Ea & _ & Hm & Heq & Hr)
                  | [(a' & Ea & Hm & Hneq & Hlen & Hr)
                    | (a' & Ea & _ & Hside & E1 & E2)]]].
  - simpl in Hn. congruence.
  - inversion Ea; subst a'.
    assert (Hcs : elems (as_seq choices) = [s]) by (rewrite <- Heq; exact Hs).
    rewrite Hr, Hcs. rewrite Hcs in Hfirst. inversion Hfirst; subst.
    simpl. now rewrite ReFacts.prefix_refl.
  - inversion Ea; subst a'. rewrite Hs in Hlen. simpl in Hlen. lia.
  - inversion Ea; subst a'.
    remember (filter (prefix s) (elems (as_seq choices))) as F eqn:HF.
    clear HF.
    destruct (matching_phase a choices multiple Hc Ha E1 E2)
      as [(e0 & Hf' & Hr & _) | [[Hf' Hr] | [(x & Hf' & Hr) | (m & Hf' & Hlen & Hr)]]];
      rewrite Hfm in Hf'; [ discriminate Hf' | | | ];
      inversion Hf'; subst F; rewrite Hr; try reflexivity.
    destruct m as [| x [| x' m']]; try (unfold len in Hlen; simpl in Hlen; lia).
    reflexivity.
Qed.

(** X10: the empty string is two candidates.  Alone it is no candidate at
    all and gives the first choice; inside a sequence it is a pattern that
    matches every choice, so that with [multiple] true all the choices come
    back. *)
Theorem empty_string_alone_or_in_a_sequence
        (k : seq_kind) (choices : value) (c1 c2 : string) (rest : list string) :
  Re.faithful re_match ->
  truthy_value choices = true ->
  elems (as_seq choices) = c1 :: c2 :: rest ->
  arg_match re_match caller (Some (Str EmptyString)) (Some choices) true
  = Return (One c1)
  /\ arg_match re_match caller (Some (Seq (PySeq k [EmptyString])))
               (Some choices) true
     = Return (Many (c1 :: c2 :: rest)).
Proof.
  intros Hf Hc Hel. rewrite !(arg_match_given re_match caller _ _ _ Hc). simpl.
  unfold first; simpl. rewrite Hel. split; [ reflexivity | ].
  rewrite (select_literal re_match EmptyString _ Hf eq_refl).
  rewrite filter_prefix_empty. unfold bind at 2 3. rewrite app_nil_r.
  unfold bind. destruct (len_several c1 c2 rest) as [_ Hne].
  now rewrite Hne, andb_false_r.
Qed.

End Outcomes.

(** ** What a constructed [ArgMatchError] holds *)

Lemma length_chars (s : string) : length (chars s) = String.length s.
Proof.
  unfold chars. rewrite length_map.
  induction s as [| c s IH]; simpl; [ reflexivity | now rewrite IH ].
Qed.

Lemma chars_nil (s : string) : chars s = [] -> s = EmptyString.
Proof. destruct s; [ reflexivity | discriminate ]. Qed.

(** When the constructor returns, it returns the record of its arguments,
    and these passed its two checks. *)
Lemma init_returns (n : Z) (args : option value) (e : ArgMatchError) :
  ArgMatchError_init n args = Return e ->
  e = MkArgMatchError n (as_args args)
  /\ (0 <= n)%Z
  /\ (items_of args = [] \/ n = 0%Z \/ len (items_of args) = n).
Proof.
  unfold ArgMatchError_init, ArgMatchError_n, ArgMatchError_args, items_of.
  simpl. destruct (Z.ltb_spec n 0) as [Hneg | Hpos]; [ discriminate | ].
  destruct (as_args args) as [[k [| x xs]] |]; simpl.
  - intros E; inversion E; subst. repeat split; auto.
  - destruct (Z.eqb_spec n 0) as [Hz | Hz].
    + intros E; inversion E; subst. repeat split; auto.
    + destruct (Z.eqb_spec n (len (x :: xs))) as [He | He]; simpl;
        [ | discriminate ].
      intros E; inversion E; subst. repeat split; auto.
  - intros E; inversion E; subst. repeat split; auto.
Qed.

(** X11: what the constructor is given can be read back: [n] is the number
    given, and [args] holds the items given, in order, or is [None] when
    there are none (no items, an empty sequence or an empty string). *)
Theorem accessors_read_back (n : Z) (args : option value) (e : ArgMatchError) :
  ArgMatchError_init n args = Return e ->
  ArgMatchError_n e = n
  /\ ArgMatchError_args e = match items_of args with
                            | [] => None
                            | x :: xs => Some (x :: xs)
                            end.
Proof.
  intros H. apply init_returns in H. destruct H as (-> & _ & _).
  split; [ reflexivity | ].
  unfold ArgMatchError_args, items_of. simpl.
  now destruct (as_args args) as [[k [| x xs]] |].
Qed.

(** X12: a constructed [ArgMatchError] keeps the invariant of the class:
    [n] is not negative, [args] is never an empty sequence, and when [n] is
    not 0 and there are items, they are [n]. *)
Theorem constructed_error_invariant
        (n : Z) (args : option value) (e : ArgMatchError) :
  ArgMatchError_init n args = Return e ->
  (0 <= ArgMatchError_n e)%Z
  /\ forall xs, ArgMatchError_args e = Some xs ->
                xs <> [] /\ (ArgMatchError_n e = 0%Z \/ len xs = ArgMatchError_n e).
Proof.
  intros H. apply init_returns in H. destruct H as (-> & Hn & Hitems).
  split; [ exact Hn | ].
  unfold ArgMatchError_args, ArgMatchError_n, items_of in *. simpl in *.
  intros xs. destruct (as_args args) as [[k [| y ys]] |]; simpl in *;
    try discriminate.
  intros E. inversion E; subst. split; [ discriminate | ].
  destruct Hitems as [H | [H | H]]; [ discriminate | now left | now right ].
Qed.

(** X13: a bare string given as the items stands for its characters: with
    [n] positive the constructor succeeds exactly when [n] is the length of
    the string, and the items are then the characters, one by one. *)
Theorem bare_string_items_are_characters (n : Z) (s : string) :
  (0 < n)%Z ->
  s <> EmptyString ->
  ArgMatchError_init n (Some (Str s))
  = if (n =? Z.of_nat (String.length s))%Z
    then Return (MkArgMatchError n (Some (tuple (chars s))))
    else Raise (ValueError "'args' must be of length 'n' when provided").
Proof.
  intros Hn Hs.
  unfold ArgMatchError_init, ArgMatchError_n, ArgMatchError_args. simpl.
  destruct (Z.ltb_spec n 0) as [Hneg | _]; [ lia | ].
  destruct (chars s) as [| x xs] eqn:Hch.
  - apply chars_nil in Hch. contradiction.
  - destruct (Z.eqb_spec n 0) as [H0 | _]; [ lia | ].
    simpl. unfold len. rewrite <- Hch, length_chars.
    now destruct (n =? Z.of_nat (String.length s))%Z.
Qed.


(** ** These properties on concrete calls *)

Lemma value_error_sources_witness :
  arg_match Re.reference NoCodeContext (Some (Seq (tuple ["x"; "y"])))
            (Some aa_ab) false
  = Raise (ValueError "'arg' must be of length 1")
  <-> ("'arg' must be of length 1" = "'arg' must be of length 1"
       /\ false = false
       /\ exists a, Some (Seq (tuple ["x"; "y"])) = Some a
                    /\ as_seq a <> as_seq aa_ab
                    /\ (1 < length (elems (as_seq a)))%nat)
      \/ (exists a,
             Some (Seq (tuple ["x"; "y"])) = Some a /\ truthy_value a = true
             /\ (false = true
                 \/ (as_seq a <> as_seq aa_ab
                     /\ exists y, elems (as_seq a) = [y]))
             /\ find_matches Re.reference (elems (as_seq a))
                             (Some (as_seq aa_ab))
                = Raise (ValueError "'arg' must be of length 1")).
Proof.
  apply (value_error_sources
           Re.reference NoCodeContext (Some (Seq (tuple ["x"; "y"]))) aa_ab
           false "'arg' must be of length 1").
  reflexivity.
Defined.

Lemma match_error_shape_witness :
  (ArgMatchError_n (MkArgMatchError 2 (Some (tuple ["aa"; "ab"]))) = 0%Z
   /\ ArgMatchError_args (MkArgMatchError 2 (Some (tuple ["aa"; "ab"])))
      = Some (elems (as_seq aa_ab)))
  \/ (exists a y,
         Some (Str "a") = Some a /\ elems (as_seq a) = [y] /\ false = false
         /\ ArgMatchError_args (MkArgMatchError 2 (Some (tuple ["aa"; "ab"])))
            = Some (filter (fun x => is_match (Re.reference y x))
                           (elems (as_seq aa_ab)))
         /\ ArgMatchError_n (MkArgMatchError 2 (Some (tuple ["aa"; "ab"])))
            = len (filter (fun x => is_match (Re.reference y x))
                          (elems (as_seq aa_ab)))
         /\ (2 <= ArgMatchError_n
                    (MkArgMatchError 2 (Some (tuple ["aa"; "ab"]))))%Z).
Proof.
  apply (match_error_shape
           Re.reference NoCodeContext (Some (Str "a")) aa_ab false
           (MkArgMatchError 2 (Some (tuple ["aa"; "ab"]))));
    reflexivity.
Defined.

Lemma raised_error_has_a_message_witness :
  (ArgMatchError_n (MkArgMatchError 0 (Some (tuple ["aa"; "ab"]))) = 0%Z
   /\ ArgMatchError_str (MkArgMatchError 0 (Some (tuple ["aa"; "ab"])))
      = Return ("No argument match found"
                  ++ match elems (as_seq aa_ab) with
                     | [c] => ", should be '" ++ c ++ "'"
                     | cs => ", should be one of '" ++ join_quoted cs ++ "'"
                     end))
  \/ (exists m,
         ArgMatchError_args (MkArgMatchError 0 (Some (tuple ["aa"; "ab"])))
         = Some m
         /\ ArgMatchError_str (MkArgMatchError 0 (Some (tuple ["aa"; "ab"])))
            = Return (("Too many matches (" ++ format_int (len m) ++ ")")
                        ++ ", found '" ++ join_quoted m ++ "'")).
Proof.
  apply (raised_error_has_a_message
           Re.reference NoCodeContext (Some (Str "z")) aa_ab false
           (MkArgMatchError 0 (Some (tuple ["aa"; "ab"]))));
    reflexivity.
Defined.

Lemma multiple_only_lifts_ambiguity_witness :
  arg_match Re.reference NoCodeContext (Some (Str "a")) (Some aa_ab) false
  = arg_match Re.reference NoCodeContext (Some (Str "a")) (Some aa_ab) true
  \/ (exists m,
         (2 <= len m)%Z
         /\ arg_match Re.reference NoCodeContext (Some (Str "a")) (Some aa_ab)
                      false
            = Raise (ArgMatchErr (MkArgMatchError (len m) (Some (tuple m))))
         /\ arg_match Re.reference NoCodeContext (Some (Str "a")) (Some aa_ab)
                      true
            = Return (Many m)).
Proof.
  apply (multiple_only_lifts_ambiguity
           Re.reference NoCodeContext (Str "a") aa_ab "a").
  - reflexivity.
  - reflexivity.
  - discriminate.
Defined.

Lemma bare_string_is_one_tuple_witness :
  arg_match Re.reference NoCodeContext (Some (Str "a")) (Some aa_ab) true
  = arg_match Re.reference NoCodeContext (Some (Seq (tuple ["a"])))
              (Some aa_ab) true
  /\ arg_match Re.reference NoCodeContext (Some (Str "a")) (Some (Str "a")) true
     = arg_match Re.reference NoCodeContext (Some (Str "a"))
                 (Some (Seq (tuple ["a"]))) true.
Proof.
  apply (bare_string_is_one_tuple
           Re.reference NoCodeContext "a" (Some (Str "a")) (Some aa_ab) true).
  discriminate.
Defined.

Lemma f_returns_a_declared_choice_witness :
  One "ab" = One "aa" \/ One "ab" = One "ab".
Proof.
  apply (f_returns_a_declared_choice
           Re.reference NoCodeContext (Some (Str "ab")) (One "ab")).
  reflexivity.
Defined.

Lemma literal_candidate_selects_by_prefix_witness :
  arg_match Re.reference NoCodeContext (Some (Str "a")) (Some aa_ab) true
  = match filter (prefix "a") (elems (as_seq aa_ab)) with
    | [] => Raise (ArgMatchErr (MkArgMatchError 0 (Some (as_seq aa_ab))))
    | [x] => Return (One x)
    | m => if true then Return (Many m)
           else Raise (ArgMatchErr (MkArgMatchError (len m) (Some (tuple m))))
    end.
Proof.
  apply (literal_candidate_selects_by_prefix
           Re.reference NoCodeContext (Str "a") aa_ab "a" true).
  - exact ReFacts.reference_faithful.
  - reflexivity.
  - reflexivity.
  - reflexivity.
  - reflexivity.
Defined.

Lemma empty_string_alone_or_in_a_sequence_witness :
  arg_match Re.reference NoCodeContext (Some (Str EmptyString)) (Some aa_ab)
            true
  = Return (One "aa")
  /\ arg_match Re.reference NoCodeContext
               (Some (Seq (PySeq KTuple [EmptyString]))) (Some aa_ab) true
     = Return (Many ["aa"; "ab"]).
Proof.
  apply (empty_string_alone_or_in_a_sequence
           Re.reference NoCodeContext KTuple aa_ab "aa" "ab" []).
  - exact ReFacts.reference_faithful.
  - reflexivity.
  - reflexivity.
Defined.

Lemma accessors_read_back_witness :
  ArgMatchError_n (MkArgMatchError 2 (Some (tuple ["aa"; "ab"]))) = 2%Z
  /\ ArgMatchError_args (MkArgMatchError 2 (Some (tuple ["aa"; "ab"])))
     = match items_of (Some aa_ab) with
       | [] => None
       | x :: xs => Some (x :: xs)
       end.
Proof.
  apply (accessors_read_back 2 (Some aa_ab)). reflexivity.
Defined.

Lemma constructed_error_invariant_witness :
  (0 <= ArgMatchError_n (MkArgMatchError 2 (Some (tuple ["aa"; "ab"]))))%Z
  /\ forall xs,
      ArgMatchError_args (MkArgMatchError 2 (Some (tuple ["aa"; "ab"])))
      = Some xs ->
      xs <> []
      /\ (ArgMatchError_n (MkArgMatchError 2 (Some (tuple ["aa"; "ab"]))) = 0%Z
          \/ len xs
             = ArgMatchError_n (MkArgMatchError 2 (Some (tuple ["aa"; "ab"])))).
Proof.
  apply (constructed_error_invariant 2 (Some aa_ab)). reflexivity.
Defined.

Lemma bare_string_items_are_characters_witness :
  ArgMatchError_init 2 (Some (Str "ab"))
  = if (2 =? Z.of_nat (String.length "ab"))%Z
    then Return (MkArgMatchError 2 (Some (tuple (chars "ab"))))
    else Raise (ValueError "'args' must be of length 'n' when provided").
Proof.
  apply (bare_string_items_are_characters 2 "ab").
  - lia.
  - discriminate.
Defined.



(** ** Choices found in the signature of the caller, and repeated choices *)

Section CallerDefaults.

Variable re_match : Re.engine.
Variable caller : caller_context.

Lemma truthy_nonempty (a : value) :
  truthy_value a = true -> exists y ys, elems (as_seq a) = y :: ys.
Proof. destruct a as [s | [k [| y ys]]]; simpl; try discriminate; eauto. Qed.

Lemma find_matches_no_choices (k : seq_kind) (ys : list string) :
  find_matches re_match ys (Some (PySeq k [])) = Return [].
Proof. induction ys as [| y ys IH]; simpl; [ | rewrite IH ]; reflexivity. Qed.

Lemma filter_twice (p : string -> bool) (x : string) (l1 l2 l3 : list string) :
  p x = true ->
  exists u v m, filter p (l1 ++ x :: l2 ++ x :: l3) = u :: v :: m.
Proof.
  intros Hx. rewrite !filter_app. simpl. rewrite !filter_app. simpl.
  rewrite Hx.
  destruct (filter p l1) as [| u [| v m]]; simpl; eauto.
  destruct (filter p l2) as [| v m]; simpl; eauto.
Qed.

(** X15: when no choices are passed and the default of the caller's
    parameter is [None], [arg_match] never returns: it raises [ValueError]
    for a candidate of more than one element with [multiple] false, and
    [TypeError] in every other case. *)
Theorem default_none_never_returns
        (arg choices : option value) (multiple : bool) :
  truthy choices = false ->
  arg_match re_match (Default None) arg choices multiple
  = match arg with
    | Some a =>
        if truthy_value a && negb multiple && (1 <? len (elems (as_seq a)))%Z
        then Raise (ValueError "'arg' must be of length 1")
        else Raise TypeError
    | None => Raise TypeError
    end.
Proof.
  intros H. unfold arg_match. rewrite H. simpl.
  destruct arg as [a |]; [ | reflexivity ].
  destruct (truthy_value a) eqn:Ha; simpl; [ | reflexivity ].
  rewrite andb_false_r.
  destruct (negb multiple && (1 <? len (elems (as_seq a)))%Z);
    [ reflexivity | ].
  destruct (truthy_nonempty a Ha) as (y & ys & Hel). now rewrite Hel.
Qed.

(** X16: when no choices are passed and the default of the caller's
    parameter is an empty sequence, an absent candidate makes [arg_match]
    raise [IndexError]; a candidate that passes the checks is not even
    matched, for there is nothing to match it with: the [ArgMatchError]
    raised has [n] equal to 0 and no items, and it is one on which
    [__str__] raises [TypeError]. *)
Theorem empty_default_gives_an_unprintable_error
        (k : seq_kind) (a : value) (choices : option value) (multiple : bool) :
  truthy choices = false ->
  truthy_value a = true ->
  multiple = true \/ (exists y, elems (as_seq a) = [y]) ->
  arg_match re_match (Default (Some (Seq (PySeq k [])))) None choices multiple
  = Raise IndexError
  /\ arg_match re_match (Default (Some (Seq (PySeq k [])))) (Some a) choices
               multiple
     = Raise (ArgMatchErr (MkArgMatchError 0 (Some (PySeq k []))))
  /\ ArgMatchError_args (MkArgMatchError 0 (Some (PySeq k []))) = None
  /\ ArgMatchError_str (MkArgMatchError 0 (Some (PySeq k []))) = Raise TypeError.
Proof.
  intros H Ha Hside. unfold arg_match. rewrite H. simpl.
  split; [ reflexivity | ]. split; [ | split; reflexivity ].
  rewrite Ha. simpl.
  destruct (truthy_nonempty a Ha) as (y & ys & Hel).
  assert (Heq : pyseq_eqb (as_seq a) (PySeq k []) = false).
  { unfold pyseq_eqb. rewrite Hel. simpl. apply andb_false_r. }
  rewrite Heq, andb_false_r.
  assert (Hlen : negb multiple && (1 <? len (elems (as_seq a)))%Z = false).
  { destruct Hside as [-> | (y' & Hy')]; [ reflexivity | ].
    rewrite Hy'. apply andb_false_r. }
  rewrite Hlen, find_matches_no_choices. reflexivity.
Qed.

(** X17: choices are not deduplicated.  With [multiple] false, a candidate
    of one element, other than the choices themselves, that matches a choice
    listed twice is never accepted: the call does not return. *)
Theorem repeated_choice_is_never_selected
        (a choices : value) (y x : string) (l1 l2 l3 : list string)
        (r : result) :
  truthy_value a = true ->
  elems (as_seq a) = [y] ->
  elems (as_seq choices) = (l1 ++ x :: l2 ++ x :: l3)%list ->
  as_seq a <> as_seq choices ->
  re_match y x = Re.ReMatch ->
  arg_match re_match caller (Some a) (Some choices) false <> Return r.
Proof.
  intros Ha Hy Hcs Hneq Hre.
  assert (Hc : truthy_value choices = true).
  { destruct choices as [s | [k cs]]; simpl in *.
    - destruct l1 as [| u [| v l1']]; simpl in Hcs; try discriminate;
        destruct l2; discriminate.
    - subst cs. now destruct l1. }
  assert (E1 : negb false && pyseq_eqb (as_seq a) (as_seq choices) = false).
  { simpl. destruct (pyseq_eqb _ _) eqn:E; [ | reflexivity ].
    apply pyseq_eqb_eq in E. contradiction. }
  assert (E2 : negb false && (1 <? len (elems (as_seq a)))%Z = false)
    by (simpl; now rewrite Hy).
  destruct (filter_twice (fun c => is_match (re_match y c)) x l1 l2 l3)
    as (u & v & m & Hfilter); [ now rewrite Hre | ].
  assert (Hspec : forall m',
             find_matches re_match (elems (as_seq a)) (Some (as_seq choices))
             = Return m' -> m' = u :: v :: m).
  { intros m' Hm'. apply find_matches_spec in Hm'. rewrite Hm', Hy, Hcs.
    unfold matches_spec. simpl. now rewrite app_nil_r. }
  destruct (matching_phase re_match caller a choices false Hc Ha E1 E2)
    as [(e0 & _ & Hr & _) | [[Hf Hr] | [(x' & Hf & Hr) | (m' & Hf & _ & Hr)]]];
    rewrite Hr; try discriminate.
  apply Hspec in Hf. discriminate Hf.
Qed.

End CallerDefaults.

Lemma default_none_never_returns_witness :
  arg_match Re.reference (Default None) (Some (Str "a")) None false
  = match Some (Str "a") with
    | Some a =>
        if truthy_value a && negb false && (1 <? len (elems (as_seq a)))%Z
        then Raise (ValueError "'arg' must be of length 1")
        else Raise TypeError
    | None => Raise TypeError
    end.
Proof.
  apply (default_none_never_returns Re.reference (Some (Str "a")) None false).
  reflexivity.
Defined.

Lemma empty_default_gives_an_unprintable_error_witness :
  arg_match Re.reference (Default (Some (Seq (PySeq KTuple [])))) None None
            false
  = Raise IndexError
  /\ arg_match Re.reference (Default (Some (Seq (PySeq KTuple []))))
               (Some (Str "a")) None false
     = Raise (ArgMatchErr (MkArgMatchError 0 (Some (PySeq KTuple []))))
  /\ ArgMatchError_args (MkArgMatchError 0 (Some (PySeq KTuple []))) = None
  /\ ArgMatchError_str (MkArgMatchError 0 (Some (PySeq KTuple [])))
     = Raise TypeError.
Proof.
  apply (empty_default_gives_an_unprintable_error
           Re.reference KTuple (Str "a") None false).
  - reflexivity.
  - reflexivity.
  - right. exists "a". reflexivity.
Defined.

Lemma repeated_choice_is_never_selected_witness :
  arg_match Re.reference NoCodeContext (Some (Str "a"))
            (Some (Seq (tuple ["ab"; "ab"]))) false
  <> Return (One "ab").
Proof.
  apply (repeated_choice_is_never_selected
           Re.reference NoCodeContext (Str "a") (Seq (tuple ["ab"; "ab"]))
           "a" "ab" [] [] [] (One "ab")).
  - reflexivity.
  - reflexivity.
  - reflexivity.
  - discriminate.
  - reflexivity.
Defined.

